(** * Wire desktop: context-menu dispatcher and macOS packager

    A shallow embedding of [electron/src/menu/context.ts] (the renderer's
    context-menu dispatcher) and of the macOS build script that follows it
    in the same slice ([buildMacOSConfig], [buildMacOSWrapper],
    [manualMacOSSign]), with the properties the specification states
    about them.

    Layout: the embedding of the two components first (modules
    [ContextMenu], [Json], [MacOS], [Picture], [Dom], [Manifests]) and
    the sample inputs ([Samples]), then the theorems. *)

From stdpp Require Import base option list strings gmap.
From Stdlib Require Import ZArith Ascii String List Lia DecimalString.
Import ListNotations.
Local Open Scope string_scope.

(** ** JavaScript values shared by both components *)

(** Truthiness of a possibly-undefined (or null) string: [undefined],
    [null] and the empty string are falsy. *)
Definition truthy (s : option string) : bool :=
  match s with
  | Some s => negb (String.eqb s "")
  | None => false
  end.

(** [a || b] on possibly-undefined strings. *)
Definition js_or (a b : option string) : option string :=
  if truthy a then a else b.

(** * Part 1: the context-menu dispatcher *)

Module ContextMenu.

(** Menu roles used by the text template. *)
Inductive Role := cut | copy | paste | selectAll.

Inductive ItemType := separator.

(** The three click handlers that appear in the file, by the closure they
    are. Each reads module state (or the clicked item) when it runs, not
    when the menu is built. *)
Inductive ClickHandler :=
| writeCopyContext        (* () => clipboard.writeText(copyContext) *)
| replaceMisspellingLabel (* (menuItem, browserWindow) =>
                               browserWindow.webContents.replaceMisspelling(menuItem.label) *)
| savePictureOfImageMenu. (* () => savePicture(imageMenu.image || '', imageMenu.timestamp) *)

(** [MenuItemConstructorOptions], restricted to the keys the file uses;
    an absent key is [None]. *)
Record MenuItemConstructorOptions := {
  click : option ClickHandler;
  enabled : option bool;
  label : option string;
  role : option Role;
  type : option ItemType
}.

(** [Menu.buildFromTemplate] keeps the template's items in order. *)
Definition Menu := list MenuItemConstructorOptions.

Definition buildFromTemplate (template : list MenuItemConstructorOptions) : Menu :=
  template.

Definition unshift {A} (x : A) (array : list A) : list A := x :: array.

Definition roleItem (l : string) (r : Role) : MenuItemConstructorOptions :=
  {| click := None; enabled := None; label := Some l; role := Some r; type := None |}.

Definition separatorItem : MenuItemConstructorOptions :=
  {| click := None; enabled := None; label := None; role := None; type := Some separator |}.

Definition suggestionItem (suggestion : string) : MenuItemConstructorOptions :=
  {| click := Some replaceMisspellingLabel; enabled := None;
     label := Some suggestion; role := None; type := None |}.

Definition noSuggestionsItem : MenuItemConstructorOptions :=
  {| click := None; enabled := Some false; label := Some "No suggestions";
     role := None; type := None |}.

Record DictionaryParams := {
  suggestions : option (list string);
  misspelledWord : option string
}.

(** Electron's [ContextMenuParams], the two fields the dispatcher reads. *)
Record ContextMenuParams := {
  params_misspelledWord : string;
  dictionarySuggestions : list string
}.

(** *** The DOM as the dispatcher observes it *)

(** A [<time>] element: only [dataset['timestamp']] is read. *)
Record TimeElement := { dataset_timestamp : option string }.

(** An element: [src] is [undefined] on elements that have no such
    property; [times] is [getElementsByTagName('time')], in document
    order. *)
Record HTMLElement := {
  nodeName : string;
  classList : list string;
  src : option string;
  href : string;
  innerText : string;
  times : list TimeElement
}.

(** The chain of [parentNode]s above an element: it ends at the
    [document] node, or at [null] for a subtree that is not attached to
    the document. *)
Inductive ParentNode :=
| document
| null
| parent (e : HTMLElement) (up : ParentNode).

(** The event: its target with the nodes above it. *)
Record ElectronEvent := {
  target : HTMLElement;
  parentNode : ParentNode
}.

(** [window.getSelection()]: [None] for [null], otherwise the selection's
    [toString()]. *)
Record Window := { getSelection : option string }.

Definition contains (e : HTMLElement) (cls : string) : bool :=
  existsb (String.eqb cls) (classList e).

(** [element.closest('.' + cls)]: the element itself, then its element
    ancestors, nearest first. *)
Fixpoint closest_above (cls : string) (p : ParentNode) : option HTMLElement :=
  match p with
  | parent e up => if contains e cls then Some e else closest_above cls up
  | document | null => None
  end.

Definition closest (event : ElectronEvent) (cls : string) : option HTMLElement :=
  if contains (target event) cls then Some (target event)
  else closest_above cls (parentNode event).

(** [elementHref.replace(/^mailto:/, '')]: the anchored pattern matches
    at most once, at position 0. *)
Definition replace_mailto (elementHref : string) : string :=
  if String.prefix "mailto:" elementHref
  then String.substring 7 (String.length elementHref - 7) elementHref
  else elementHref.

(** *** Module state *)

(** The module-level variables [textMenu] and [copyContext], and the two
    properties attached to the singleton [imageMenu]. *)
Record ModuleState := {
  textMenu : option Menu;
  copyContext : string;
  imageMenu_image : option string;
  imageMenu_timestamp : option string
}.

Definition initialState : ModuleState :=
  {| textMenu := None; copyContext := "";
     imageMenu_image := None; imageMenu_timestamp := None |}.

Definition set_textMenu (v : Menu) (m : ModuleState) : ModuleState :=
  {| textMenu := Some v; copyContext := copyContext m;
     imageMenu_image := imageMenu_image m;
     imageMenu_timestamp := imageMenu_timestamp m |}.

Definition set_copyContext (v : string) (m : ModuleState) : ModuleState :=
  {| textMenu := textMenu m; copyContext := v;
     imageMenu_image := imageMenu_image m;
     imageMenu_timestamp := imageMenu_timestamp m |}.

Definition set_image (v : option string) (m : ModuleState) : ModuleState :=
  {| textMenu := textMenu m; copyContext := copyContext m;
     imageMenu_image := v;
     imageMenu_timestamp := imageMenu_timestamp m |}.

Definition set_timestamp (v : option string) (m : ModuleState) : ModuleState :=
  {| textMenu := textMenu m; copyContext := copyContext m;
     imageMenu_image := imageMenu_image m;
     imageMenu_timestamp := v |}.

(** Which menu was popped up; the text menu is rebuilt on every dispatch,
    so its items are recorded with it. *)
Inductive Popup :=
| popupTextMenu (items : Menu)
| popupImageMenu
| popupDefaultMenu.

Inductive Completion := Normal | TypeError.

(** What one call of [handleContextMenu] did. *)
Record Outcome := {
  defaultPrevented : bool;      (* event.preventDefault() was called *)
  popup : option Popup;         (* the menu whose popup() was called *)
  completion : Completion;
  after : ModuleState;
  suggestionsAfter : list string  (* params.dictionarySuggestions afterwards *)
}.

(** What activating a menu item does. *)
Inductive Effect :=
| replaceMisspelling (word : string)
| clipboardWriteText (text : string)
| savePicture (url : string) (timestamp : option string).

Definition activate (m : ModuleState) (item : MenuItemConstructorOptions) : option Effect :=
  match click item with
  | Some writeCopyContext => Some (clipboardWriteText (copyContext m))
  | Some replaceMisspellingLabel => Some (replaceMisspelling (default "" (label item)))
  | Some savePictureOfImageMenu =>
      Some (savePicture (default "" (js_or (imageMenu_image m) (Some "")))
                        (imageMenu_timestamp m))
  | None => None
  end.

Section dispatcher.

(** [locale.getText]: the locale tables are outside this slice. *)
Variable getText : string -> string.

(** [String.prototype.trim]. *)
Variable trim : string -> string.

Definition defaultMenu : Menu :=
  buildFromTemplate
    [ {| click := Some writeCopyContext; enabled := None;
         label := Some (getText "menuCopy"); role := None; type := None |} ].

Definition textMenuTemplate : list MenuItemConstructorOptions :=
  [ roleItem (getText "menuCut") cut;
    roleItem (getText "menuCopy") copy;
    roleItem (getText "menuPaste") paste;
    separatorItem;
    roleItem (getText "menuSelectAll") selectAll ].

(** [createTextMenu]: returns the value assigned to [textMenu] and the
    suggestion array as the call leaves it ([reverse()] works in
    place). *)
Definition createTextMenu (dictionaryParams : DictionaryParams)
  : Menu * option (list string) :=
  let template := textMenuTemplate in
  if truthy (misspelledWord dictionaryParams) then
    let template := unshift separatorItem template in
    match suggestions dictionaryParams with
    | Some array =>
        if Nat.ltb 0 (length array) then
          let reversed := rev array in
          (buildFromTemplate
             (fold_left (fun template suggestion =>
                           unshift (suggestionItem suggestion) template)
                        reversed template),
           Some reversed)
        else (buildFromTemplate (unshift noSuggestionsItem template), Some array)
    | None =>
        (buildFromTemplate (unshift noSuggestionsItem template), None)
    end
  else (buildFromTemplate template, suggestions dictionaryParams).

Definition imageMenu : Menu :=
  buildFromTemplate
    [ {| click := Some savePictureOfImageMenu; enabled := None;
         label := Some (getText "menuSavePictureAs"); role := None; type := None |} ].

(** The [while] loop of the last branch: climb until [null], the
    document, or an element of class [text]. *)
Fixpoint climb (p : ParentNode) : ParentNode :=
  match p with
  | parent e up => if contains e "text" then p else climb up
  | document | null => p
  end.

(** [(window.getSelection() || '').toString()]. *)
Definition selectionText (window : Window) : string :=
  default "" (getSelection window).

Definition handleContextMenu (event : ElectronEvent) (params : ContextMenuParams)
    (window : Window) (m : ModuleState) : Outcome :=
  let element := target event in
  let m := set_copyContext "" m in
  let unchanged := dictionarySuggestions params in
  if String.eqb (nodeName element) "TEXTAREA" || String.eqb (nodeName element) "INPUT" then
    let '(menu, array) :=
      createTextMenu {| misspelledWord := Some (params_misspelledWord params);
                        suggestions := Some (dictionarySuggestions params) |} in
    {| defaultPrevented := true; popup := Some (popupTextMenu menu);
       completion := Normal; after := set_textMenu menu m;
       suggestionsAfter := default [] array |}
  else if contains element "image-element" || contains element "detail-view-image" then
    let elementSource := src element in
    match closest event "message-body" with
    | None =>
        (* parentElement is null: reading getElementsByTagName throws *)
        {| defaultPrevented := true; popup := None; completion := TypeError;
           after := m; suggestionsAfter := unchanged |}
    | Some parentElement =>
        let m :=
          match head (times parentElement) with
          | Some timeElement => set_timestamp (dataset_timestamp timeElement) m
          | None => m
          end in
        let m := set_image elementSource m in
        {| defaultPrevented := true; popup := Some popupImageMenu;
           completion := Normal; after := m; suggestionsAfter := unchanged |}
    end
  else if String.eqb (nodeName element) "A" then
    let elementHref := href element in
    let m := set_copyContext (replace_mailto elementHref) m in
    {| defaultPrevented := true; popup := Some popupDefaultMenu;
       completion := Normal; after := m; suggestionsAfter := unchanged |}
  else if contains element "text" then
    let selected := selectionText window in
    let m := set_copyContext
               (if truthy (Some selected) then selected else trim (innerText element)) m in
    {| defaultPrevented := true; popup := Some popupDefaultMenu;
       completion := Normal; after := m; suggestionsAfter := unchanged |}
  else
    match climb (parentNode event) with
    | document =>
        {| defaultPrevented := false; popup := None; completion := Normal;
           after := m; suggestionsAfter := unchanged |}
    | parent e _ =>
        let selected := selectionText window in
        let m := set_copyContext
                   (if truthy (Some selected) then selected else trim (innerText e)) m in
        {| defaultPrevented := true; popup := Some popupDefaultMenu;
           completion := Normal; after := m; suggestionsAfter := unchanged |}
    | null =>
        let selected := selectionText window in
        if truthy (Some selected) then
          {| defaultPrevented := true; popup := Some popupDefaultMenu;
             completion := Normal; after := set_copyContext selected m;
             suggestionsAfter := unchanged |}
        else
          (* null.innerText *)
          {| defaultPrevented := true; popup := None; completion := TypeError;
             after := m; suggestionsAfter := unchanged |}
    end.

End dispatcher.

End ContextMenu.

(** * Part 2: JSON files as [fs-extra] reads and writes them *)

(** The build script keeps the two manifests as parsed values and writes
    them back with [{spaces: 2}]. This module gives those values and what
    template literals and object spreads make of them.

    The model of the script (module [MacOS]) takes [JSON.parse] and
    [JSON.stringify] as parameters, like the other library functions, so
    what is proved there holds for every manifest that [JSON.parse]
    accepts. [stringify] and [parsePlain] below are the two functions on
    plain manifests; they serve to run the model on sample files. *)

Module Json.

#[local] Set Warnings "-register-all".

(** A number is kept as the text [Number::toString] gives it (the
    script never computes with one); a string as its UTF-8 text; the
    members of an object are in the order in which JavaScript enumerates
    them. *)
Inductive json :=
| JNull
| JBool (b : bool)
| JNumber (text : string)
| JString (s : string)
| JArray (elements : list json)
| JObject (members : list (string * json)).

Definition dquote : ascii := ascii_of_nat 34.
Definition backslash : ascii := ascii_of_nat 92.

(** *** Objects: insertion-ordered properties *)

Fixpoint obj_get (k : string) (o : list (string * json)) : option json :=
  match o with
  | [] => None
  | (k', v) :: rest => if String.eqb k k' then Some v else obj_get k rest
  end.

(** Defining a property: an existing key keeps its place. *)
Fixpoint obj_set (k : string) (v : json) (o : list (string * json))
  : list (string * json) :=
  match o with
  | [] => [(k, v)]
  | (k', v') :: rest =>
      if String.eqb k k' then (k, v) :: rest else (k', v') :: obj_set k v rest
  end.

Definition obj_remove (k : string) (o : list (string * json)) : list (string * json) :=
  filter (fun kv => negb (String.eqb k (fst kv))) o.

(** *** JSON.stringify(value, null, 2) on plain values *)

(** [stringify] is [JSON.stringify(value, null, 2)] on values whose
    strings are well-formed text (no lone surrogate). *)

Definition hex_digit (n : nat) : ascii :=
  match String.get n "0123456789abcdef" with
  | Some c => c
  | None => "0"%char
  end.

(** QuoteJSONString on one character. *)
Definition quote_char (c : ascii) : string :=
  let n := nat_of_ascii c in
  if Nat.eqb n 34 then String backslash (String dquote "")
  else if Nat.eqb n 92 then String backslash (String backslash "")
  else if Nat.eqb n 8 then String backslash "b"
  else if Nat.eqb n 9 then String backslash "t"
  else if Nat.eqb n 10 then String backslash "n"
  else if Nat.eqb n 12 then String backslash "f"
  else if Nat.eqb n 13 then String backslash "r"
  else if Nat.ltb n 32 then
    String backslash
      (String "u" (String "0" (String "0"
         (String (hex_digit (n / 16)) (String (hex_digit (n mod 16)) "")))))
  else String c "".

Fixpoint quote_body (s : string) : string :=
  match s with
  | EmptyString => ""
  | String c rest => quote_char c ++ quote_body rest
  end.

Definition quote (s : string) : string :=
  String dquote (quote_body s ++ String dquote "").

Definition number_to_string (n : Z) : string :=
  DecimalString.NilZero.string_of_int (Z.to_int n).

Definition newline : string := String (ascii_of_nat 10) "".

Fixpoint join (sep : string) (parts : list string) : string :=
  match parts with
  | [] => ""
  | [p] => p
  | p :: rest => p ++ sep ++ join sep rest
  end.

(** A number that is not finite is serialized as [null]. *)
Definition serialize_number (text : string) : string :=
  if String.eqb text "Infinity" || String.eqb text "-Infinity" || String.eqb text "NaN"
  then "null"
  else text.

(** SerializeJSONProperty with gap = two spaces; [indent] is the current
    indentation. *)
Fixpoint serialize (indent : string) (value : json) : string :=
  match value with
  | JNull => "null"
  | JBool true => "true"
  | JBool false => "false"
  | JNumber text => serialize_number text
  | JString s => quote s
  | JArray [] => "[]"
  | JArray elements =>
      let stepback := indent in
      let indent := indent ++ "  " in
      "[" ++ newline ++ indent
          ++ join ("," ++ newline ++ indent) (map (serialize indent) elements)
          ++ newline ++ stepback ++ "]"
  | JObject [] => "{}"
  | JObject members =>
      let stepback := indent in
      let indent := indent ++ "  " in
      "{" ++ newline ++ indent
          ++ join ("," ++ newline ++ indent)
               (map (fun kv => quote (fst kv) ++ ": " ++ serialize indent (snd kv)) members)
          ++ newline ++ stepback ++ "}"
  end.

Definition stringify (value : json) : string := serialize "" value.

(** *** A parser for plain manifests *)

(** [parsePlain] reads JSON text made of ASCII characters, with integer
    numbers up to 2^53 in magnitude, strings without [\u] escapes and
    object keys that are not written in digits only. Where it answers
    [Some v], [v] is the value of the text; it answers [None] on
    everything else, be it malformed or JSON outside this fragment. *)

Definition is_ws (c : ascii) : bool :=
  let n := nat_of_ascii c in
  Nat.eqb n 32 || Nat.eqb n 9 || Nat.eqb n 10 || Nat.eqb n 13.

Fixpoint skip_ws (s : list ascii) : list ascii :=
  match s with
  | c :: rest => if is_ws c then skip_ws rest else s
  | [] => []
  end.

Definition is_digit (c : ascii) : bool :=
  let n := nat_of_ascii c in Nat.leb 48 n && Nat.leb n 57.

Definition digit_value (c : ascii) : Z := Z.of_nat (nat_of_ascii c) - 48.

(** The characters of a string literal after its opening quote, up to
    the closing one. *)
Fixpoint string_body (s : list ascii) (acc : string) : option (string * list ascii) :=
  match s with
  | [] => None
  | c :: rest =>
      let n := nat_of_ascii c in
      if Nat.eqb n 34 then Some (acc, rest)
      else if Nat.eqb n 92 then
        match rest with
        | e :: rest' =>
            let k := nat_of_ascii e in
            let unescaped :=
              if Nat.eqb k 34 then Some dquote
              else if Nat.eqb k 92 then Some backslash
              else if Nat.eqb k 47 then Some "/"%char
              else if Nat.eqb k 98 then Some (ascii_of_nat 8)
              else if Nat.eqb k 102 then Some (ascii_of_nat 12)
              else if Nat.eqb k 110 then Some (ascii_of_nat 10)
              else if Nat.eqb k 114 then Some (ascii_of_nat 13)
              else if Nat.eqb k 116 then Some (ascii_of_nat 9)
              else None in
            match unescaped with
            | Some u => string_body rest' (acc ++ String u "")
            | None => None
            end
        | [] => None
        end
      else if Nat.ltb n 32 || Nat.leb 128 n then None
      else string_body rest (acc ++ String c "")
  end.

Fixpoint digits (s : list ascii) (acc : Z) : Z * list ascii :=
  match s with
  | c :: rest => if is_digit c then digits rest (10 * acc + digit_value c) else (acc, s)
  | [] => (acc, [])
  end.

(** An integer literal: no leading zero, no fraction or exponent after
    it, magnitude at most 2^53. *)
Definition unsigned_number (s : list ascii) : option (Z * list ascii) :=
  match s with
  | c :: rest =>
      if is_digit c then
        let '(n, rest') :=
          if Nat.eqb (nat_of_ascii c) 48 then (0%Z, rest) else digits s 0%Z in
        match rest' with
        | d :: _ =>
            if is_digit d || Ascii.eqb d "." || Ascii.eqb d "e" || Ascii.eqb d "E"
            then None
            else if Z.leb n (2 ^ 53) then Some (n, rest') else None
        | [] => if Z.leb n (2 ^ 53) then Some (n, rest') else None
        end
      else None
  | [] => None
  end.

Definition number (s : list ascii) : option (json * list ascii) :=
  match s with
  | "-"%char :: rest =>
      match unsigned_number rest with
      | Some (n, rest') => Some (JNumber (number_to_string (- n)), rest')
      | None => None
      end
  | _ =>
      match unsigned_number s with
      | Some (n, rest') => Some (JNumber (number_to_string n), rest')
      | None => None
      end
  end.

Definition digits_only (k : string) : bool :=
  negb (String.eqb k "") && forallb is_digit (list_ascii_of_string k).

Fixpoint value (fuel : nat) (s : list ascii) : option (json * list ascii) :=
  match fuel with
  | O => None
  | S fuel =>
      match skip_ws s with
      | "{"%char :: rest =>
          match skip_ws rest with
          | "}"%char :: rest' => Some (JObject [], rest')
          | _ => members fuel rest []
          end
      | "["%char :: rest =>
          match skip_ws rest with
          | "]"%char :: rest' => Some (JArray [], rest')
          | _ => elements fuel rest []
          end
      | "t"%char :: "r"%char :: "u"%char :: "e"%char :: rest => Some (JBool true, rest)
      | "f"%char :: "a"%char :: "l"%char :: "s"%char :: "e"%char :: rest =>
          Some (JBool false, rest)
      | "n"%char :: "u"%char :: "l"%char :: "l"%char :: rest => Some (JNull, rest)
      | c :: rest =>
          if Nat.eqb (nat_of_ascii c) 34 then
            match string_body rest "" with
            | Some (str, rest') => Some (JString str, rest')
            | None => None
            end
          else number (c :: rest)
      | [] => None
      end
  end
with members (fuel : nat) (s : list ascii) (acc : list (string * json))
  : option (json * list ascii) :=
  match fuel with
  | O => None
  | S fuel =>
      match skip_ws s with
      | c :: rest =>
          if Nat.eqb (nat_of_ascii c) 34 then
            match string_body rest "" with
            | Some (k, rest1) =>
                if digits_only k then None else
                match skip_ws rest1 with
                | ":"%char :: rest2 =>
                    match value fuel rest2 with
                    | Some (v, rest3) =>
                        match skip_ws rest3 with
                        | ","%char :: rest4 => members fuel rest4 (obj_set k v acc)
                        | "}"%char :: rest4 => Some (JObject (obj_set k v acc), rest4)
                        | _ => None
                        end
                    | None => None
                    end
                | _ => None
                end
            | None => None
            end
          else None
      | [] => None
      end
  end
with elements (fuel : nat) (s : list ascii) (acc : list json)
  : option (json * list ascii) :=
  match fuel with
  | O => None
  | S fuel =>
      match value fuel s with
      | Some (v, rest) =>
          match skip_ws rest with
          | ","%char :: rest' => elements fuel rest' (acc ++ [v])
          | "]"%char :: rest' => Some (JArray (acc ++ [v]), rest')
          | _ => None
          end
      | None => None
      end
  end.

(** The whole text is one value between optional white space. The fuel
    is one more than the length of the text. *)
Definition parsePlain (text : string) : option json :=
  let s := list_ascii_of_string text in
  match value (S (length s)) s with
  | Some (v, rest) =>
      match skip_ws rest with
      | [] => Some v
      | _ => None
      end
  | None => None
  end.

(** *** Values as the script uses them *)

(** ToString, as a template literal applies it; [None] is [undefined]. *)
Fixpoint toString_value (v : json) : string :=
  match v with
  | JNull => "null"
  | JBool true => "true"
  | JBool false => "false"
  | JNumber text => text
  | JString s => s
  | JArray elements =>
      join "," (map (fun e => match e with JNull => "" | _ => toString_value e end) elements)
  | JObject _ => "[object Object]"
  end.

Definition toString (v : option json) : string :=
  match v with
  | Some v => toString_value v
  | None => "undefined"
  end.

(** The own enumerable properties an object spread copies from a parsed
    value: an object's members, an array's elements and a string's code
    units under their indices, nothing from the other values.
    [codeUnits] cuts a string into its UTF-16 code units, each as a
    string. *)
Definition index_key (i : nat) : string := number_to_string (Z.of_nat i).

Definition spread (codeUnits : string -> list string) (v : json)
  : list (string * json) :=
  match v with
  | JObject members => members
  | JArray elements => imap (fun i e => (index_key i, e)) elements
  | JString s => imap (fun i c => (index_key i, JString c)) (codeUnits s)
  | JNull | JBool _ | JNumber _ => []
  end.

(** [{...o, k: v}] as [JSON.stringify] will see it: a property whose
    value is [undefined] is not written. *)
Definition assign (k : string) (v : option json) (o : list (string * json))
  : list (string * json) :=
  match v with
  | Some v => obj_set k v o
  | None => obj_remove k o
  end.

End Json.

(** * Part 3: the macOS packager *)

Module MacOS.

Import Json.

(** [MacOSConfig] as [buildMacOSConfig] builds it; [null] is [None]. *)
Record MacOSConfig := {
  bundleId : string;
  category : string;
  certNameApplication : option string;
  certNameInstaller : option string;
  notarizeAppleId : option string;
  notarizeApplePassword : option string
}.

(** At run time a [CommonConfig] is the object the config loader built:
    its properties, in order. *)
Definition CommonConfig := list (string * json).

Record OsxSign := {
  entitlements : string;
  entitlements_inherit : string;
  identity : string
}.

Record OsxNotarize := {
  appleId : string;
  appleIdPassword : string
}.

Record Protocol := {
  protocol_name : string;
  schemes : list (option json)
}.

(** [electronPackager.Options], the keys the script sets. Values copied
    from the common configuration stay the property values they are
    ([None]: [undefined]). *)
Record PackagerOptions := {
  appBundleId : string;
  appCategoryType : string;
  appCopyright : option json;
  appVersion : option json;
  asar : option json;
  buildVersion : option json;
  darwinDarkModeSupport : bool;
  dir : string;
  extendInfo : string;
  helperBundleId : string;
  icon : string;
  ignore : string;
  name : option json;
  out : option json;
  overwrite : bool;
  platform : string;
  protocols : list Protocol;
  prune : bool;
  quiet : bool;
  osxSign : option OsxSign;
  osxNotarize : option OsxNotarize
}.

Definition with_osxSign (v : OsxSign) (c : PackagerOptions) : PackagerOptions :=
  {| appBundleId := appBundleId c; appCategoryType := appCategoryType c;
     appCopyright := appCopyright c; appVersion := appVersion c; asar := asar c;
     buildVersion := buildVersion c;
     darwinDarkModeSupport := darwinDarkModeSupport c; dir := dir c;
     extendInfo := extendInfo c; helperBundleId := helperBundleId c;
     icon := icon c; ignore := ignore c; name := name c; out := out c;
     overwrite := overwrite c; platform := platform c; protocols := protocols c;
     prune := prune c; quiet := quiet c;
     osxSign := Some v; osxNotarize := osxNotarize c |}.

Definition with_osxNotarize (v : OsxNotarize) (c : PackagerOptions) : PackagerOptions :=
  {| appBundleId := appBundleId c; appCategoryType := appCategoryType c;
     appCopyright := appCopyright c; appVersion := appVersion c; asar := asar c;
     buildVersion := buildVersion c;
     darwinDarkModeSupport := darwinDarkModeSupport c; dir := dir c;
     extendInfo := extendInfo c; helperBundleId := helperBundleId c;
     icon := icon c; ignore := ignore c; name := name c; out := out c;
     overwrite := overwrite c; platform := platform c; protocols := protocols c;
     prune := prune c; quiet := quiet c;
     osxSign := osxSign c; osxNotarize := Some v |}.

(** The options of [buildPkg] ([electron-osx-sign]'s [flatAsync]). *)
Record FlatOptions := {
  flat_app : string;
  flat_identity : string;
  flat_pkg : string;
  flat_platform : string
}.

(** What [electronPackager] resolves to: [string | string[]]. *)
Inductive Built :=
| one (buildDir : string)
| several (buildDirs : list string).

(** *** The world the script acts on *)

Inductive Error :=
| ReadError   (* a file that is missing or does not parse *)
| WriteError  (* a file that could not be written *)
| TypeError
| ToolError.  (* an external tool failed *)

Inductive result (A : Type) :=
| Ok (a : A)
| Throw (e : Error).
Arguments Ok {A} a.
Arguments Throw {A} e.

(** Files by resolved path, [process.env], and the commands handed to
    [execSync] so far, oldest first. *)
Record World := {
  files : gmap string string;
  env : gmap string string;
  shell : list string
}.

Definition set_files (fs : gmap string string) (w : World) : World :=
  {| files := fs; env := env w; shell := shell w |}.

(** A computation: it ends with a value or a thrown error, and leaves
    the world as it is at that point. *)
Definition M (A : Type) : Type := World -> result A * World.

#[export] Instance M_ret : MRet M := fun A a w => (Ok a, w).

#[export] Instance M_bind : MBind M := fun A B f c w =>
  match c w with
  | (Ok a, w') => f a w'
  | (Throw e, w') => (Throw e, w')
  end.

Definition throw {A} (e : Error) : M A := fun w => (Throw e, w).

(** [try { body } finally { finalizer }]. *)
Definition try_finally {A} (body : M A) (finalizer : M unit) : M A := fun w =>
  let '(r, w1) := body w in
  match finalizer w1 with
  | (Ok _, w2) => (r, w2)
  | (Throw e, w2) => (Throw e, w2)
  end.

(** [for (const x of xs) { body }]. *)
Fixpoint for_of {A} (xs : list A) (body : A -> M unit) : M unit :=
  match xs with
  | [] => mret tt
  | x :: rest => body x ;; for_of rest body
  end.

Section script.

(** [JSON.parse] ([None]: it throws) and [JSON.stringify(value, null, 2)],
    behind [fs.readJson] and [fs.writeJson]. *)
Variable JSON_parse : string -> option json.
Variable JSON_stringify : json -> string.

(** A string cut into its UTF-16 code units, for an object spread. *)
Variable codeUnits : string -> list string.

(** [fs.writeFile], behind [fs.writeJson]: from the path, the text and
    the files, whether the write succeeds and the files it leaves. A
    write may fail, and may leave the file in any state when it does. *)
Variable writeFile :
  string -> string -> gmap string string -> result unit * gmap string string.

(** [path.resolve] and [path.join]. *)
Variable resolve : string -> string.
Variable pathJoin : string -> string -> string.

(** The env-file overrides the config loader merges into the
    descriptor: from the env file's path, the files, [process.env] and
    the descriptor as read, the properties of the merged configuration
    (or an error). *)
Variable envOverrides :
  string -> gmap string string -> gmap string string -> json -> result CommonConfig.

(** External tools: each may change files and may fail. *)
Variable electronPackager :
  PackagerOptions -> gmap string string -> result Built * gmap string string.
Variable ensureDir : option json -> gmap string string -> result unit * gmap string string.
Variable buildPkg : FlatOptions -> gmap string string -> result unit * gmap string string.
(** The command [execSync] runs. *)
Variable run : string -> gmap string string -> result unit * gmap string string.

Definition external {A} (tool : gmap string string -> result A * gmap string string)
  : M A := fun w =>
  let '(r, fs) := tool (files w) in (r, set_files fs w).

Definition execSync (command : string) : M unit := fun w =>
  let '(r, fs) := run command (files w) in
  (r, {| files := fs; env := env w; shell := shell w ++ [command] |}).

(** [fs.readJson]: it throws when the file is missing or [JSON.parse]
    throws. *)
Definition readJson (file : string) : M json := fun w =>
  match files w !! file with
  | Some text =>
      match JSON_parse text with
      | Some v => (Ok v, w)
      | None => (Throw ReadError, w)
      end
  | None => (Throw ReadError, w)
  end.

(** The text [fs.writeJson(file, value, {spaces: 2})] writes. *)
Definition written (v : json) : string := JSON_stringify v ++ newline.

(** [fs.writeJson(file, value, {spaces: 2})]. *)
Definition writeJson (file : string) (v : json) : M unit :=
  external (writeFile file (written v)).

(** The file can be written: a write to it succeeds and leaves the text
    in it. *)
Definition writable (file : string) : Prop :=
  forall text fs, writeFile file text fs = (Ok tt, <[file := text]> fs).

Definition merged (envFile : string) (defaultConfig : json) : M CommonConfig := fun w =>
  (envOverrides envFile (files w) (env w) defaultConfig, w).

(** Modelled from the spec: [getCommonConfig], the config loader imported
    from [./commonConfig], which this slice does not contain. The spec:
    the packager "reads a versioned JSON project descriptor and an env
    file, merges environment overrides into a config struct" and
    "snapshots the two manifest files"; [commonConfig] is "sourced from a
    versioned JSON descriptor merged with env-file overrides". So
    [defaultConfig] is the descriptor as read, and [commonConfig] the
    merged struct. It reads and changes nothing. *)
Definition getCommonConfig (envFile wireJson : string) : M (json * CommonConfig) :=
  defaultConfig ← readJson wireJson;
  commonConfig ← merged envFile defaultConfig;
  mret (defaultConfig, commonConfig).

Definition getenv (variable : string) : M (option string) := fun w =>
  (Ok (env w !! variable), w).

Definition macOsDefaultConfig : MacOSConfig :=
  {| bundleId := "com.wearezeta.zclient.mac";
     category := "public.app-category.social-networking";
     certNameApplication := None;
     certNameInstaller := None;
     notarizeAppleId := None;
     notarizeApplePassword := None |}.

Definition buildMacOSConfig (wireJsonPath envFilePath : string) (signManually : bool)
  : M (MacOSConfig * PackagerOptions) :=
  let wireJsonResolved := resolve wireJsonPath in
  let envFileResolved := resolve envFilePath in
  '(_, commonConfig) ← getCommonConfig envFileResolved wireJsonResolved;
  MACOS_BUNDLE_ID ← getenv "MACOS_BUNDLE_ID";
  MACOS_CERTIFICATE_NAME_APPLICATION ← getenv "MACOS_CERTIFICATE_NAME_APPLICATION";
  MACOS_CERTIFICATE_NAME_INSTALLER ← getenv "MACOS_CERTIFICATE_NAME_INSTALLER";
  MACOS_NOTARIZE_APPLE_ID ← getenv "MACOS_NOTARIZE_APPLE_ID";
  MACOS_NOTARIZE_APPLE_PASSWORD ← getenv "MACOS_NOTARIZE_APPLE_PASSWORD";
  let macOSConfig :=
    {| bundleId :=
         default "" (js_or MACOS_BUNDLE_ID (Some (bundleId macOsDefaultConfig)));
       category := category macOsDefaultConfig;
       certNameApplication :=
         js_or MACOS_CERTIFICATE_NAME_APPLICATION (certNameApplication macOsDefaultConfig);
       certNameInstaller :=
         js_or MACOS_CERTIFICATE_NAME_INSTALLER (certNameInstaller macOsDefaultConfig);
       notarizeAppleId :=
         js_or MACOS_NOTARIZE_APPLE_ID (notarizeAppleId macOsDefaultConfig);
       notarizeApplePassword :=
         js_or MACOS_NOTARIZE_APPLE_PASSWORD (notarizeApplePassword macOsDefaultConfig) |} in
  let packagerConfig :=
    {| appBundleId := bundleId macOSConfig;
       appCategoryType := "public.app-category.social-networking";
       appCopyright := obj_get "copyright" commonConfig;
       appVersion := obj_get "version" commonConfig;
       asar := obj_get "enableAsar" commonConfig;
       buildVersion := obj_get "buildNumber" commonConfig;
       darwinDarkModeSupport := true;
       dir := ".";
       extendInfo := "resources/macos/custom.plist";
       helperBundleId := bundleId macOSConfig ++ ".helper";
       icon := "resources/macos/logo.icns";
       ignore := "electron\/renderer\/src";
       name := obj_get "name" commonConfig;
       out := obj_get "buildDir" commonConfig;
       overwrite := true;
       platform := "mas";
       protocols :=
         [ {| protocol_name := toString (obj_get "name" commonConfig) ++ " Core Protocol";
              schemes := [obj_get "customProtocolName" commonConfig] |} ];
       prune := true;
       quiet := false;
       osxSign := None;
       osxNotarize := None |} in
  let packagerConfig :=
    if negb signManually then
      let packagerConfig :=
        if truthy (certNameApplication macOSConfig) then
          with_osxSign
            {| entitlements := "resources/macos/entitlements/parent.plist";
               entitlements_inherit := "resources/macos/entitlements/child.plist";
               identity := default "" (certNameApplication macOSConfig) |}
            packagerConfig
        else packagerConfig in
      if truthy (notarizeAppleId macOSConfig) && truthy (notarizeApplePassword macOSConfig)
      then
        with_osxNotarize
          {| appleId := default "" (notarizeAppleId macOSConfig);
             appleIdPassword := default "" (notarizeApplePassword macOSConfig) |}
          packagerConfig
      else packagerConfig
    else packagerConfig in
  mret (macOSConfig, packagerConfig).

Definition inheritEntitlements : string := "resources/macos/entitlements/child.plist".
Definition mainEntitlements : string := "resources/macos/entitlements/parent.plist".

(** The fixed list of bundle-relative paths; [name] is
    [`${commonConfig.name}`]. *)
Definition filesToSign (name : string) : list string :=
  [ "Frameworks/Electron Framework.framework/Versions/A/Electron Framework";
    "Frameworks/Electron Framework.framework/Versions/A/Libraries/libEGL.dylib";
    "Frameworks/Electron Framework.framework/Versions/A/Libraries/libffmpeg.dylib";
    "Frameworks/Electron Framework.framework/Versions/A/Libraries/libGLESv2.dylib";
    "Frameworks/Electron Framework.framework/Versions/A/Libraries/libswiftshader_libEGL.dylib";
    "Frameworks/Electron Framework.framework/Versions/A/Libraries/libswiftshader_libGLESv2.dylib";
    "Frameworks/Electron Framework.framework/";
    "Frameworks/" ++ name ++ " Helper.app/Contents/MacOS/" ++ name ++ " Helper";
    "Frameworks/" ++ name ++ " Helper.app/";
    "Frameworks/" ++ name ++ " Helper (GPU).app/Contents/MacOS/" ++ name ++ " Helper (GPU)";
    "Frameworks/" ++ name ++ " Helper (GPU).app/";
    "Frameworks/" ++ name ++ " Helper (Plugin).app/Contents/MacOS/" ++ name ++ " Helper (Plugin)";
    "Frameworks/" ++ name ++ " Helper (Plugin).app/";
    "Frameworks/" ++ name ++ " Helper (Renderer).app/Contents/MacOS/" ++ name ++ " Helper (Renderer)";
    "Frameworks/" ++ name ++ " Helper (Renderer).app/";
    "Library/LoginItems/" ++ name ++ " Login Helper.app/Contents/MacOS/" ++ name ++ " Login Helper";
    "Library/LoginItems/" ++ name ++ " Login Helper.app/" ].

Definition codesign (certificate entitlementsFile path : string) : string :=
  "codesign --deep -fs '" ++ certificate ++ "' --entitlements '" ++ entitlementsFile
    ++ "' '" ++ path ++ "'".

Definition productbuild (appFile certificate pkgFile : string) : string :=
  "productbuild --component '" ++ appFile ++ "' /Applications --sign '" ++ certificate
    ++ "' '" ++ pkgFile ++ "'".

Definition manualMacOSSign (appFile pkgFile : string) (commonConfig : CommonConfig)
    (macOSConfig : MacOSConfig) : M unit :=
  let name := toString (obj_get "name" commonConfig) in
  if truthy (certNameApplication macOSConfig) then
    let certNameApplication := default "" (certNameApplication macOSConfig) in
    for_of (filesToSign name) (fun fileName =>
      let fullPath := appFile ++ "/Contents/" ++ fileName in
      execSync (codesign certNameApplication inheritEntitlements fullPath)) ;;
    if truthy (certNameInstaller macOSConfig) then
      let certNameInstaller := default "" (certNameInstaller macOSConfig) in
      let appExecutable := appFile ++ "/Contents/MacOS/" ++ name in
      execSync (codesign certNameApplication inheritEntitlements appExecutable) ;;
      execSync (codesign certNameApplication mainEntitlements appFile) ;;
      execSync (productbuild appFile certNameInstaller pkgFile)
    else mret tt
  else mret tt.

(** [path.join] throws on an argument that is not a string. *)
Definition path_join (a : option json) (b : string) : M string :=
  match a with
  | Some (JString a) => mret (pathJoin a b)
  | _ => throw TypeError
  end.

Definition buildMacOSWrapper (packagerConfig : PackagerOptions) (macOSConfig : MacOSConfig)
    (packageJsonPath wireJsonPath envFilePath : string) (signManually : bool) : M unit :=
  let wireJsonResolved := resolve wireJsonPath in
  let packageJsonResolved := resolve packageJsonPath in
  let envFileResolved := resolve envFilePath in
  '(defaultConfig, commonConfig) ← getCommonConfig envFileResolved wireJsonResolved;
  let name := toString (obj_get "name" commonConfig) in
  originalPackageJson ← readJson packageJsonResolved;
  writeJson packageJsonResolved
    (JObject (assign "version" (obj_get "version" commonConfig)
                (assign "productName" (obj_get "name" commonConfig)
                   (spread codeUnits originalPackageJson)))) ;;
  writeJson wireJsonResolved (JObject commonConfig) ;;
  try_finally
    (buildDir ← external (electronPackager packagerConfig);
     let buildDir :=
       match buildDir with
       | several buildDirs => head buildDirs
       | one buildDir => Some buildDir
       end in
     if truthy (certNameInstaller macOSConfig) then
       appFile ← path_join (JString <$> buildDir) (name ++ ".app");
       external (ensureDir (obj_get "distDir" commonConfig)) ;;
       pkgFile ← path_join (obj_get "distDir" commonConfig) (name ++ ".pkg");
       if signManually then
         manualMacOSSign appFile pkgFile commonConfig macOSConfig
       else
         external (buildPkg {| flat_app := appFile;
                               flat_identity := default "" (certNameInstaller macOSConfig);
                               flat_pkg := pkgFile;
                               flat_platform := "mas" |})
     else mret tt)
    (writeJson packageJsonResolved originalPackageJson ;;
     writeJson wireJsonResolved defaultConfig).

End script.

End MacOS.

(** * Part 4: saving a picture *)

(** [savePicture], the function behind the image menu's only item, and
    the item's click handler carried through to it. *)

Module Picture.

Import ContextMenu.

(** What [fetch] resolves to: whether the status was a success, and the
    body as [arrayBuffer()] yields it ([None]: reading the body
    rejects). *)
Record Response := {
  ok : bool;
  arrayBuffer : option (list Byte.byte)
}.

(** One [ipcRenderer.send(channel, picture, timestamp)]. *)
Record IpcMessage := {
  channel : string;
  picture : list Byte.byte;
  sentTimestamp : option string
}.

Section save.

(** [config.userAgent] and [EVENT_TYPE.ACTION.SAVE_PICTURE], both
    declared outside this slice. *)
Variable userAgent : string.
Variable SAVE_PICTURE : string.

(** [fetch(url, {headers})]; [None]: the promise rejects. *)
Variable fetch : string -> list (string * string) -> option Response.

(** [savePicture]: the message it sends, or [None] when its promise
    rejects (nothing is sent then). *)
Definition savePicture (url : string) (timestamp : option string) : option IpcMessage :=
  match fetch url [("User-Agent", userAgent)] with
  | Some response =>
      match arrayBuffer response with
      | Some bytes =>
          Some {| channel := SAVE_PICTURE; picture := bytes; sentTimestamp := timestamp |}
      | None => None
      end
  | None => None
  end.

(** The image menu's click handler:
    [() => savePicture(imageMenu.image || '', imageMenu.timestamp)]. *)
Definition clickSavePicture (m : ModuleState) : option IpcMessage :=
  savePicture (default "" (js_or (imageMenu_image m) (Some ""))) (imageMenu_timestamp m).

End save.

End Picture.

(** * Parent chains *)

Module Dom.

Import ContextMenu.

(** The chain that passes through [elements], nearest first, and then
    continues with [top]. *)
Fixpoint through (elements : list HTMLElement) (top : ParentNode) : ParentNode :=
  match elements with
  | [] => top
  | e :: rest => parent e (through rest top)
  end.

End Dom.

(** * The manifests during and after a build *)

Module Manifests.

Import Json MacOS.

(** The files once [buildMacOSWrapper] has written the build's name and
    version into the two manifests, before the packager runs. *)
Definition buildManifest (codeUnits : string -> list string)
    (originalPackageJson : json) (commonConfig : CommonConfig) : json :=
  JObject (assign "version" (obj_get "version" commonConfig)
             (assign "productName" (obj_get "name" commonConfig)
                (spread codeUnits originalPackageJson))).

Definition building (JSON_stringify : json -> string)
    (codeUnits : string -> list string)
    (packageJsonResolved wireJsonResolved : string)
    (originalPackageJson : json) (commonConfig : CommonConfig)
    (fs : gmap string string) : gmap string string :=
  <[wireJsonResolved := written JSON_stringify (JObject commonConfig)]>
    (<[packageJsonResolved :=
         written JSON_stringify
           (buildManifest codeUnits originalPackageJson commonConfig)]> fs).

(** The files once the [finally] block has written the two values
    back. *)
Definition restored (JSON_stringify : json -> string)
    (packageJsonResolved wireJsonResolved : string)
    (originalPackageJson defaultConfig : json)
    (fs : gmap string string) : gmap string string :=
  <[wireJsonResolved := written JSON_stringify defaultConfig]>
    (<[packageJsonResolved := written JSON_stringify originalPackageJson]> fs).

(** The commands of a manual signing with both certificates, in the
    order of the source. *)
Definition signingCommands (appFile pkgFile name application installer : string)
  : list string :=
  (map (fun fileName =>
          codesign application inheritEntitlements (appFile ++ "/Contents/" ++ fileName))
       (filesToSign name)
   ++ [ codesign application inheritEntitlements (appFile ++ "/Contents/MacOS/" ++ name);
        codesign application mainEntitlements appFile;
        productbuild appFile installer pkgFile ])%list.

End Manifests.

(** * Sample inputs

    Concrete elements, events, files and tools, used where a statement
    is evaluated on an input. *)

Module Samples.

Import ContextMenu Json MacOS.

(** A locale table that answers each key with the key itself. *)
Definition keyText (key : string) : string := key.

(** [trim] on ASCII text. *)
Definition is_blank (c : ascii) : bool :=
  let n := nat_of_ascii c in
  Nat.eqb n 32 || (Nat.leb 9 n && Nat.leb n 13).

Fixpoint dropBlanks (s : list ascii) : list ascii :=
  match s with
  | c :: rest => if is_blank c then dropBlanks rest else s
  | [] => []
  end.

Definition trimAscii (s : string) : string :=
  string_of_list_ascii (rev (dropBlanks (rev (dropBlanks (list_ascii_of_string s))))).

Definition element (name : string) (classes : list string) : HTMLElement :=
  {| nodeName := name; classList := classes; src := None; href := "";
     innerText := ""; times := [] |}.

Definition noSelection : Window := {| getSelection := Some "" |}.

Definition noParams : ContextMenuParams :=
  {| params_misspelledWord := ""; dictionarySuggestions := [] |}.

(** A textarea in the page body. *)
Definition textareaEvent : ElectronEvent :=
  {| target := element "TEXTAREA" [];
     parentNode := parent (element "BODY" []) (parent (element "HTML" []) document) |}.

Definition misspelled (array : list string) : ContextMenuParams :=
  {| params_misspelledWord := "hte"; dictionarySuggestions := array |}.

(** A link to a mail address, and one to a page. *)
Definition anchorEvent (url : string) : ElectronEvent :=
  {| target := {| nodeName := "A"; classList := []; src := None; href := url;
                  innerText := "link"; times := [] |};
     parentNode := parent (element "BODY" []) (parent (element "HTML" []) document) |}.

(** An image of class [image-element] inside a message body whose
    [time] elements are [stamps]. *)
Definition messageBody (stamps : list TimeElement) : HTMLElement :=
  {| nodeName := "DIV"; classList := ["message-body"]; src := None; href := "";
     innerText := ""; times := stamps |}.

Definition imageEvent (url : string) (stamps : list TimeElement) : ElectronEvent :=
  {| target := {| nodeName := "IMG"; classList := ["image-element"]; src := Some url;
                  href := ""; innerText := ""; times := [] |};
     parentNode := parent (messageBody stamps)
                     (parent (element "BODY" []) (parent (element "HTML" []) document)) |}.

(** An image of class [detail-view-image] in a viewer that is not part
    of any message body. *)
Definition detailImageEvent : ElectronEvent :=
  {| target := {| nodeName := "IMG"; classList := ["detail-view-image"];
                  src := Some "https://x/y.png";
                  href := ""; innerText := ""; times := [] |};
     parentNode := parent (element "DIV" ["detail-view"])
                     (parent (element "BODY" []) (parent (element "HTML" []) document)) |}.

(** The text [s] with every apostrophe read as a double quote. *)
Definition quoted (s : string) : string :=
  string_of_list_ascii
    (map (fun c => if Ascii.eqb c "'" then dquote else c) (list_ascii_of_string s)).

(** A package manifest as [writeJson] lays it out, and the same value
    written on one line. *)
Definition packageJsonText : string := quoted
"{
  'name': 'wire-desktop',
  'version': '3.0.0',
  'private': true
}
".

Definition packageJsonCompact : string :=
  quoted "{'name':'wire-desktop','version':'3.0.0','private':true}".

Definition wireJsonText : string := quoted
"{
  'buildDir': 'wrap/build',
  'distDir': 'wrap/dist',
  'name': 'Wire',
  'version': '3.0.0'
}
".

Definition repository (packageJson : string) : World :=
  {| files := {[ "/repo/package.json" := packageJson; "/repo/wire.json" := wireJsonText ]};
     env := ∅;
     shell := [] |}.

(** The code units of ASCII text: its characters. *)
Definition asciiUnits (s : string) : list string :=
  map (fun c => String c "") (list_ascii_of_string s).

(** A file system on which every write succeeds, and one on which
    [wire.json] cannot be written. *)
Definition writing (file text : string) (fs : gmap string string)
  : result unit * gmap string string :=
  (Ok tt, <[file := text]> fs).

Definition descriptorLocked (file text : string) (fs : gmap string string)
  : result unit * gmap string string :=
  if String.eqb file "/repo/wire.json" then (Throw WriteError, fs)
  else (Ok tt, <[file := text]> fs).

(** Absolute, normalised paths resolve to themselves. *)
Definition resolveAbsolute (p : string) : string := p.

Definition joinSegments (a b : string) : string := a ++ "/" ++ b.

(** A loader that finds nothing to override. *)
Definition noOverrides (envFile : string) (fs env : gmap string string) (descriptor : json)
  : result CommonConfig :=
  Ok (spread asciiUnits descriptor).

Definition quietTool {X A} (a : A) (x : X) (fs : gmap string string)
  : result A * gmap string string :=
  (Ok a, fs).

(** A packager that overwrites both manifests and then fails. *)
Definition failingPackager (options : PackagerOptions) (fs : gmap string string)
  : result Built * gmap string string :=
  (Throw ToolError, <["/repo/wire.json" := "{}"]> (<["/repo/package.json" := "{}"]> fs)).

Definition sampleOptions : PackagerOptions :=
  {| appBundleId := "com.wearezeta.zclient.mac";
     appCategoryType := "public.app-category.social-networking";
     appCopyright := None; appVersion := Some (JString "3.0.0"); asar := None;
     buildVersion := None; darwinDarkModeSupport := true; dir := ".";
     extendInfo := "resources/macos/custom.plist";
     helperBundleId := "com.wearezeta.zclient.mac.helper";
     icon := "resources/macos/logo.icns"; ignore := "electron\/renderer\/src";
     name := Some (JString "Wire"); out := Some (JString "wrap/build");
     overwrite := true; platform := "mas"; protocols := []; prune := true;
     quiet := false; osxSign := None; osxNotarize := None |}.

Definition certificates (application installer : option string) : MacOSConfig :=
  {| bundleId := "com.wearezeta.zclient.mac";
     category := "public.app-category.social-networking";
     certNameApplication := application;
     certNameInstaller := installer;
     notarizeAppleId := None;
     notarizeApplePassword := None |}.

Definition wireConfig : CommonConfig := [("name", JString "Wire")].

Definition emptyWorld : World := {| files := ∅; env := ∅; shell := [] |}.

(** A state left behind by earlier clicks. *)
Definition usedState : ModuleState :=
  {| textMenu := None; copyContext := "copied before";
     imageMenu_image := Some "https://x/old.png"; imageMenu_timestamp := Some "T0" |}.

(** A [span] inside a code block inside a message text. *)
Definition codeSpanEvent (text : string) : ElectronEvent :=
  {| target := element "SPAN" [];
     parentNode :=
       Dom.through
         [ element "CODE" []; element "PRE" [];
           {| nodeName := "DIV"; classList := ["text"]; src := None; href := "";
              innerText := text; times := [] |} ]
         (parent (element "BODY" []) (parent (element "HTML" []) document)) |}.

(** An element of class [text]. *)
Definition textEvent (text : string) : ElectronEvent :=
  {| target := {| nodeName := "DIV"; classList := ["text"]; src := None; href := "";
                  innerText := text; times := [] |};
     parentNode := parent (element "BODY" []) (parent (element "HTML" []) document) |}.

(** A plain element of the page, and one in a subtree that is not
    attached to the document. *)
Definition plainEvent : ElectronEvent :=
  {| target := element "DIV" ["sidebar"];
     parentNode := parent (element "BODY" []) (parent (element "HTML" []) document) |}.

Definition detachedEvent : ElectronEvent :=
  {| target := element "SPAN" [];
     parentNode := parent (element "DIV" []) null |}.

(** An anchor that carries the class [image-element]. *)
Definition imageAnchorEvent : ElectronEvent :=
  {| target := {| nodeName := "A"; classList := ["image-element"]; src := None;
                  href := "mailto:a@b.com"; innerText := ""; times := [] |};
     parentNode :=
       parent (messageBody [])
         (parent (element "BODY" []) (parent (element "HTML" []) document)) |}.

Definition selection (text : string) : Window := {| getSelection := Some text |}.

(** The values the two sample manifests hold. *)
Definition wireJsonMembers : CommonConfig :=
  [("buildDir", JString "wrap/build"); ("distDir", JString "wrap/dist");
   ("name", JString "Wire"); ("version", JString "3.0.0")].

Definition packageJsonValue : json :=
  JObject [("name", JString "wire-desktop"); ("version", JString "3.0.0");
           ("private", JBool true)].

(** A packager that answers with one build directory and leaves a
    bundle behind. *)
Definition bundlingPackager (options : PackagerOptions) (fs : gmap string string)
  : result Built * gmap string string :=
  (Ok (one "wrap/build/Wire-mas-x64"),
   <["wrap/build/Wire-mas-x64/Wire.app" := "bundle"]> fs).

(** A repository in which [package.json] is missing. *)
Definition descriptorOnly : World :=
  {| files := {[ "/repo/wire.json" := wireJsonText ]}; env := ∅; shell := [] |}.

(** A server that answers every address with the same two bytes and the
    status "not found". *)
Definition notFound (url : string) (headers : list (string * string))
  : option Picture.Response :=
  Some {| Picture.ok := false; Picture.arrayBuffer := Some [Byte.x34; Byte.x30] |}.

(** An environment with the application certificate set and the
    installer certificate set to the empty string. *)
Definition signingEnv : gmap string string :=
  {[ "MACOS_BUNDLE_ID" := "com.example.app";
     "MACOS_CERTIFICATE_NAME_APPLICATION" := "Application";
     "MACOS_CERTIFICATE_NAME_INSTALLER" := "" ]}.

Definition repositoryWith (variables : gmap string string) : World :=
  {| files := files (repository packageJsonText); env := variables; shell := [] |}.

(** A packager that answers with a list of build directories. *)
Definition listingPackager (dirs : list string) (options : PackagerOptions)
    (fs : gmap string string) : result Built * gmap string string :=
  (Ok (several dirs), <["wrap/build/Wire-mas-x64/Wire.app" := "bundle"]> fs).


End Samples.

(** * Theorems: JavaScript values *)

Lemma truthy_nonempty (s : string) : s <> "" -> truthy (Some s) = true.
Proof.
  intros H. simpl. destruct (String.eqb_spec s ""); [congruence | reflexivity].
Qed.

Lemma truthy_Some (s : option string) :
  truthy s = true -> exists v, s = Some v /\ v <> "".
Proof.
  destruct s as [v |]; simpl; [| discriminate].
  intros H. exists v. split; [reflexivity |].
  destruct (String.eqb_spec v ""); [discriminate | assumption].
Qed.

(** * Theorems: the context-menu dispatcher *)

Section dispatcher_facts.

Import ContextMenu.

Variable getText : string -> string.
Variable trim : string -> string.

(** Unshifting the elements of a list one by one puts them in front in
    the opposite order. *)
Lemma fold_left_unshift {A B} (f : A -> B) (l : list A) (template : list B) :
  fold_left (fun template x => unshift (f x) template) l template
  = (map f (rev l) ++ template)%list.
Proof.
  revert template.
  induction l as [| x l IH]; intros template; simpl.
  - reflexivity.
  - rewrite IH, map_app. simpl. rewrite <- app_assoc. reflexivity.
Qed.

(** The menu [createTextMenu] builds from a non-empty suggestion array. *)
Lemma createTextMenu_suggestions (word : option string) (array : list string) :
  truthy word = true -> array <> [] ->
  createTextMenu getText {| suggestions := Some array; misspelledWord := word |}
  = ((map suggestionItem array ++ separatorItem :: textMenuTemplate getText)%list,
     Some (rev array)).
Proof.
  intros Hword Harray. unfold createTextMenu. simpl. rewrite Hword.
  destruct array as [| s array]; [congruence |].
  unfold buildFromTemplate. simpl Nat.ltb. cbv iota.
  rewrite fold_left_unshift, rev_involutive.
  reflexivity.
Qed.

(** The menu [createTextMenu] builds when there is nothing to suggest. *)
Lemma createTextMenu_no_suggestions (dictionaryParams : DictionaryParams) :
  truthy (misspelledWord dictionaryParams) = true ->
  suggestions dictionaryParams = None \/ suggestions dictionaryParams = Some [] ->
  fst (createTextMenu getText dictionaryParams)
  = noSuggestionsItem :: separatorItem :: textMenuTemplate getText.
Proof.
  intros Hword Hnone. unfold createTextMenu. rewrite Hword.
  destruct Hnone as [-> | ->]; reflexivity.
Qed.

(** An editable target takes the first branch: the text menu is rebuilt
    from the event's parameters and popped up. *)
Lemma handleContextMenu_editable event params window m :
  nodeName (target event) = "TEXTAREA" \/ nodeName (target event) = "INPUT" ->
  let built :=
    createTextMenu getText
      {| misspelledWord := Some (params_misspelledWord params);
         suggestions := Some (dictionarySuggestions params) |} in
  let o := handleContextMenu getText trim event params window m in
  defaultPrevented o = true /\
  popup o = Some (popupTextMenu (fst built)) /\
  completion o = Normal /\
  textMenu (after o) = Some (fst built).
Proof.
  intros Hname. unfold handleContextMenu.
  assert (Hcond : String.eqb (nodeName (target event)) "TEXTAREA"
                  || String.eqb (nodeName (target event)) "INPUT" = true).
  { destruct Hname as [-> | ->]; reflexivity. }
  rewrite Hcond.
  destruct (createTextMenu _ _) as [menu array]. simpl. auto.
Qed.

(** X1. Whatever the state before the call, [copyContext] afterwards is
    decided by the event, the parameters and the selection alone: no
    value of an earlier click survives a dispatch. *)
Lemma copyContext_fresh event params window m1 m2 :
  copyContext (after (handleContextMenu getText trim event params window m1))
  = copyContext (after (handleContextMenu getText trim event params window m2)).
Proof.
  unfold handleContextMenu.
  repeat match goal with
         | |- context [if ?c then _ else _] => destruct c
         | |- context [match ?x with _ => _ end] => destruct x
         end; reflexivity.
Qed.

(** X2. Whenever the image menu pops up, the image it holds is the
    [src] of the element that was clicked, whatever it held before. *)
Lemma image_fresh event params window m :
  popup (handleContextMenu getText trim event params window m) = Some popupImageMenu ->
  imageMenu_image (after (handleContextMenu getText trim event params window m))
  = src (target event).
Proof.
  unfold handleContextMenu.
  repeat match goal with
         | |- context [if ?c then _ else _] => destruct c
         | |- context [match ?x with _ => _ end] => destruct x
         end; simpl; intros H; try discriminate H; reflexivity.
Qed.

(** X3. A popup is never shown without [preventDefault]: every branch
    that pops up a menu has suppressed the default action first. *)
Lemma popup_prevents_default event params window m :
  popup (handleContextMenu getText trim event params window m) <> None ->
  defaultPrevented (handleContextMenu getText trim event params window m) = true.
Proof.
  unfold handleContextMenu.
  repeat match goal with
         | |- context [if ?c then _ else _] => destruct c
         | |- context [match ?x with _ => _ end] => destruct x
         end; simpl; intros H; try reflexivity; congruence.
Qed.

(** X4. When the handler returns, it has called [preventDefault]
    exactly if it has shown a menu. *)
Lemma prevented_iff_popup_when_normal event params window m :
  completion (handleContextMenu getText trim event params window m) = Normal ->
  (defaultPrevented (handleContextMenu getText trim event params window m) = true
   <-> popup (handleContextMenu getText trim event params window m) <> None).
Proof.
  unfold handleContextMenu.
  repeat match goal with
         | |- context [if ?c then _ else _] => destruct c
         | |- context [match ?x with _ => _ end] => destruct x
         end; simpl; intros H; split; intros H'; congruence.
Qed.

(** [substring] from the start, over the whole length. *)
Lemma substring_whole (s : string) : String.substring 0 (String.length s) s = s.
Proof. induction s as [| c s IH]; simpl; [reflexivity | rewrite IH; reflexivity]. Qed.

Lemma replace_mailto_prefixed (rest : string) :
  replace_mailto ("mailto:" ++ rest) = rest.
Proof.
  unfold replace_mailto.
  change ("mailto:" ++ rest) with
    (String "m" (String "a" (String "i" (String "l" (String "t" (String "o"
       (String ":" rest))))))).
  cbn. rewrite Nat.sub_0_r, substring_whole.
  destruct rest; reflexivity.
Qed.

Lemma replace_mailto_other (elementHref : string) :
  String.prefix "mailto:" elementHref = false ->
  replace_mailto elementHref = elementHref.
Proof. intros H. unfold replace_mailto. rewrite H. reflexivity. Qed.

(** C2 (as amended). For a TEXTAREA or INPUT target with a misspelled
    word and a non-empty suggestion list, the text menu that is built and
    popped up starts with one item per suggestion, in the order of the
    list as it was passed (reversing the array and then unshifting each
    element restores that order); activating such an item replaces the
    misspelled word by the item's suggestion; a separator and the
    cut/copy/paste/select-all template follow. *)
Theorem C2_suggestions_lead_in_given_order event params window m :
  nodeName (target event) = "TEXTAREA" \/ nodeName (target event) = "INPUT" ->
  params_misspelledWord params <> "" ->
  dictionarySuggestions params <> [] ->
  let o := handleContextMenu getText trim event params window m in
  let leading := map suggestionItem (dictionarySuggestions params) in
  popup o = Some (popupTextMenu
                    (leading ++ separatorItem :: textMenuTemplate getText)%list) /\
  map label leading = map Some (dictionarySuggestions params) /\
  (forall item, In item leading ->
     exists suggestion, label item = Some suggestion /\
       forall m', activate m' item = Some (replaceMisspelling suggestion)).
Proof.
  intros Hname Hword Hsugg o leading.
  destruct (handleContextMenu_editable event params window m Hname)
    as (_ & Hpopup & _ & _).
  split; [| split].
  - subst o. rewrite Hpopup.
    rewrite createTextMenu_suggestions; [reflexivity | | assumption].
    apply truthy_nonempty; assumption.
  - subst leading. rewrite map_map. reflexivity.
  - intros item Hin. subst leading. apply in_map_iff in Hin.
    destruct Hin as (s & <- & _). exists s. split; reflexivity.
Qed.

(** C7. For a TEXTAREA or INPUT target with a misspelled word and an
    empty suggestion list, the menu that is popped up starts with the
    disabled "No suggestions" item, followed by a separator and the
    standard template; [createTextMenu] builds the same menu when the
    suggestion list is absent. *)
Theorem C7_no_suggestions_placeholder event params window m dictionaryParams :
  nodeName (target event) = "TEXTAREA" \/ nodeName (target event) = "INPUT" ->
  params_misspelledWord params <> "" ->
  dictionarySuggestions params = [] ->
  truthy (misspelledWord dictionaryParams) = true ->
  suggestions dictionaryParams = None \/ suggestions dictionaryParams = Some [] ->
  let placeholder :=
    {| click := None; enabled := Some false; label := Some "No suggestions";
       role := None; type := None |} in
  popup (handleContextMenu getText trim event params window m)
  = Some (popupTextMenu (placeholder :: separatorItem :: textMenuTemplate getText)) /\
  fst (createTextMenu getText dictionaryParams)
  = placeholder :: separatorItem :: textMenuTemplate getText.
Proof.
  intros Hname Hword Hsugg Htruthy Hnone placeholder.
  destruct (handleContextMenu_editable event params window m Hname)
    as (_ & Hpopup & _ & _).
  split.
  - rewrite Hpopup, createTextMenu_no_suggestions; [reflexivity | | ].
    + apply truthy_nonempty; assumption.
    + right. simpl. rewrite Hsugg. reflexivity.
  - apply createTextMenu_no_suggestions; assumption.
Qed.

(** C6. In the anchor case (an [A] element that is not an image element,
    which the dispatcher tests first), the default menu pops up and
    [copyContext] is the element's [href] without a leading "mailto:":
    the rest of the string when the [href] starts with it, the [href]
    itself otherwise. *)
Theorem C6_anchor_href_without_mailto event params window m :
  nodeName (target event) = "A" ->
  contains (target event) "image-element" = false ->
  contains (target event) "detail-view-image" = false ->
  let o := handleContextMenu getText trim event params window m in
  popup o = Some popupDefaultMenu /\
  (forall rest, href (target event) = "mailto:" ++ rest ->
     copyContext (after o) = rest) /\
  (String.prefix "mailto:" (href (target event)) = false ->
     copyContext (after o) = href (target event)) /\
  activate (after o) (hd separatorItem (defaultMenu getText))
  = Some (clipboardWriteText (copyContext (after o))).
Proof.
  intros Hname Himg Hdetail o. subst o. unfold handleContextMenu.
  rewrite Hname, Himg, Hdetail. simpl.
  repeat split.
  - intros rest ->. apply replace_mailto_prefixed.
  - apply replace_mailto_other.
Qed.

(** C10. In the image branch, when neither the target nor any of its
    ancestors has the class [message-body], the handler has called
    [preventDefault], throws a TypeError (the null result of [closest]
    is dereferenced) and shows no popup; when there is such an element,
    the branch completes normally and pops up the image menu. *)
Theorem C10_image_branch_needs_message_body event params window m :
  nodeName (target event) <> "TEXTAREA" ->
  nodeName (target event) <> "INPUT" ->
  contains (target event) "image-element" = true
    \/ contains (target event) "detail-view-image" = true ->
  let o := handleContextMenu getText trim event params window m in
  (closest event "message-body" = None ->
     defaultPrevented o = true /\ completion o = TypeError /\ popup o = None) /\
  (forall parentElement, closest event "message-body" = Some parentElement ->
     defaultPrevented o = true /\ completion o = Normal /\
     popup o = Some popupImageMenu).
Proof.
  intros Harea Hinput Hclass o. subst o. unfold handleContextMenu.
  apply String.eqb_neq in Harea, Hinput. rewrite Harea, Hinput.
  assert (Hcond : contains (target event) "image-element"
                  || contains (target event) "detail-view-image" = true).
  { destruct Hclass as [-> | ->]; [reflexivity | apply orb_true_r]. }
  simpl orb. rewrite Hcond.
  split.
  - intros ->. auto.
  - intros parentElement ->. auto.
Qed.

End dispatcher_facts.

(** * Theorems: the macOS packager *)

Section packager_facts.

Import Json MacOS.

Variable JSON_parse : string -> option json.
Variable JSON_stringify : json -> string.
Variable codeUnits : string -> list string.
Variable writeFile :
  string -> string -> gmap string string -> result unit * gmap string string.
Variable resolve : string -> string.
Variable pathJoin : string -> string -> string.
Variable envOverrides :
  string -> gmap string string -> gmap string string -> json -> result CommonConfig.
Variable electronPackager :
  PackagerOptions -> gmap string string -> result Built * gmap string string.
Variable ensureDir : option json -> gmap string string -> result unit * gmap string string.
Variable buildPkg : FlatOptions -> gmap string string -> result unit * gmap string string.
Variable run : string -> gmap string string -> result unit * gmap string string.

Local Abbreviation readJson := (MacOS.readJson JSON_parse).
Local Abbreviation written := (MacOS.written JSON_stringify).
Local Abbreviation writeJson := (MacOS.writeJson JSON_stringify writeFile).
Local Abbreviation writable := (MacOS.writable writeFile).

(** Reading a file that holds JSON text returns its value and changes
    nothing. *)
Lemma readJson_parsed (file text : string) (v : json) (w : World) :
  files w !! file = Some text -> JSON_parse text = Some v ->
  readJson file w = (Ok v, w).
Proof.
  intros Hfile Hparse. unfold MacOS.readJson. rewrite Hfile, Hparse. reflexivity.
Qed.

(** The loader returns the descriptor as read and the merged
    configuration. *)
Lemma getCommonConfig_loaded envFile wireJson text descriptor commonConfig w :
  files w !! wireJson = Some text -> JSON_parse text = Some descriptor ->
  envOverrides envFile (files w) (env w) descriptor = Ok commonConfig ->
  getCommonConfig JSON_parse envOverrides envFile wireJson w
  = (Ok (descriptor, commonConfig), w).
Proof.
  intros Hfile Hparse Hmerge. unfold getCommonConfig, mbind, M_bind, merged.
  rewrite (readJson_parsed _ _ _ _ Hfile Hparse), Hmerge. reflexivity.
Qed.

(** A write to a file that can be written. *)
Lemma writeJson_ok (file : string) (v : json) (w : World) :
  writable file ->
  writeJson file v w = (Ok tt, set_files (<[file := written v]> (files w)) w).
Proof.
  intros Hwrite. unfold MacOS.writeJson, external. rewrite Hwrite. reflexivity.
Qed.

(** Whatever the body of a [try] does, the two writes of its [finally]
    block are the last ones, when they succeed. *)
Lemma try_finally_two_writes {A} (body : M A) (p q : string) (a b : json) (w : World) :
  writable p -> writable q ->
  try_finally body (writeJson p a ;; writeJson q b) w
  = (fst (body w),
     set_files (<[q := written b]> (<[p := written a]> (files (snd (body w)))))
               (snd (body w))).
Proof.
  intros Hp Hq. unfold try_finally, mbind, M_bind.
  destruct (body w) as [r w1]. rewrite (writeJson_ok _ _ _ Hp), (writeJson_ok _ _ _ Hq).
  reflexivity.
Qed.

Lemma execSync_ok (command : string) (w : World) :
  (forall c fs, fst (run c fs) = Ok tt) ->
  exists fs, execSync run command w
             = (Ok tt, {| files := fs; env := env w; shell := shell w ++ [command] |}).
Proof.
  intros Hrun. unfold execSync. specialize (Hrun command (files w)).
  destruct (run command (files w)) as [r fs]. simpl in Hrun. subst r.
  exists fs. reflexivity.
Qed.

(** When every command succeeds, a loop of [execSync] calls hands its
    commands to the shell in order. *)
Lemma for_of_execSync {A} (command : A -> string) (xs : list A) (w : World) :
  (forall c fs, fst (run c fs) = Ok tt) ->
  exists fs, for_of xs (fun x => execSync run (command x)) w
             = (Ok tt, {| files := fs; env := env w;
                          shell := (shell w ++ map command xs)%list |}).
Proof.
  intros Hrun. revert w.
  induction xs as [| x xs IH]; intros w; simpl.
  - exists (files w). rewrite app_nil_r. destruct w; reflexivity.
  - unfold mbind, M_bind.
    destruct (execSync_ok (command x) w Hrun) as [fs ->].
    destruct (IH {| files := fs; env := env w; shell := shell w ++ [command x] |})
      as [fs' ->].
    exists fs'. simpl. rewrite <- app_assoc. reflexivity.
Qed.

Lemma bind_ok {A B} (c : M A) (f : A -> M B) (w w1 : World) (a : A) :
  c w = (Ok a, w1) -> (c ≫= f) w = f a w1.
Proof. intros H. unfold mbind, M_bind. rewrite H. reflexivity. Qed.

Lemma writeJson_then {B} (file : string) (v : json) (k : M B) (w : World) :
  writable file ->
  (writeJson file v ;; k) w = k (set_files (<[file := written v]> (files w)) w).
Proof.
  intros Hwrite. unfold mbind, M_bind. rewrite (writeJson_ok _ _ _ Hwrite). reflexivity.
Qed.

(** C1 (as amended). Take an execution of [buildMacOSWrapper] in which
    the configuration is loaded and [package.json] is read, so that both
    manifests hold JSON, and in which the writes to the two manifests
    succeed. However the packager, the signing steps and the installer
    build behave, and whether they return or throw, after the call each
    manifest holds the two-space serialisation (with a final newline) of
    the value it held before the call. A manifest that was already laid
    out that way is therefore byte-identical to what it was. *)
Theorem C1_manifests_restored_as_parsed
    packagerConfig macOSConfig packageJsonPath wireJsonPath envFilePath signManually
    (w : World) (packageText wireText : string) (package descriptor : json)
    (commonConfig : CommonConfig) :
  files w !! resolve packageJsonPath = Some packageText ->
  files w !! resolve wireJsonPath = Some wireText ->
  JSON_parse packageText = Some package ->
  JSON_parse wireText = Some descriptor ->
  envOverrides (resolve envFilePath) (files w) (env w) descriptor = Ok commonConfig ->
  writable (resolve packageJsonPath) ->
  writable (resolve wireJsonPath) ->
  let w' :=
    snd (buildMacOSWrapper JSON_parse JSON_stringify codeUnits writeFile resolve pathJoin
           envOverrides electronPackager ensureDir buildPkg run packagerConfig
           macOSConfig packageJsonPath wireJsonPath envFilePath signManually w) in
  files w' !! resolve packageJsonPath = Some (written package) /\
  files w' !! resolve wireJsonPath = Some (written descriptor) /\
  (packageText = written package ->
     files w' !! resolve packageJsonPath = files w !! resolve packageJsonPath) /\
  (wireText = written descriptor ->
     files w' !! resolve wireJsonPath = files w !! resolve wireJsonPath).
Proof.
  intros Hpackage Hwire Hparse_package Hparse_wire Hmerge Hwrite_package Hwrite_wire w'.
  assert (Hafter :
    files w' !! resolve packageJsonPath = Some (written package) /\
    files w' !! resolve wireJsonPath = Some (written descriptor)).
  { subst w'. unfold buildMacOSWrapper.
    rewrite (bind_ok _ _ _ _ _
               (getCommonConfig_loaded _ _ _ _ _ _ Hwire Hparse_wire Hmerge)).
    cbv beta iota.
    rewrite (bind_ok _ _ _ _ _ (readJson_parsed _ _ _ _ Hpackage Hparse_package)).
    rewrite (writeJson_then _ _ _ _ Hwrite_package), (writeJson_then _ _ _ _ Hwrite_wire).
    rewrite (try_finally_two_writes _ _ _ _ _ _ Hwrite_package Hwrite_wire).
    cbn [snd files set_files].
    split.
    - destruct (decide (resolve wireJsonPath = resolve packageJsonPath)) as [Heq | Hne].
      + rewrite Heq, lookup_insert_eq.
        rewrite Heq in Hwire. congruence.
      + rewrite lookup_insert_ne, lookup_insert_eq by assumption. reflexivity.
    - apply lookup_insert_eq. }
  destruct Hafter as [Hp Hw].
  repeat split; try assumption.
  - intros Hsame. rewrite Hp, Hpackage, Hsame. reflexivity.
  - intros Hsame. rewrite Hw, Hwire, Hsame. reflexivity.
Qed.

(** C4 (as amended). Let the application certificate name be set and
    not empty, and let every command succeed. If the installer
    certificate name is set and not empty too, [manualMacOSSign] hands
    the shell exactly: one [codesign] with the inheriting (child)
    entitlements per entry of the fixed path list, in the list's order;
    then the [codesign] of the app's executable; then the [codesign] of
    the app bundle with the parent entitlements; then one [productbuild]
    signing the installer package with the installer identity. Without
    an installer certificate name it hands the shell the per-path
    [codesign] calls and nothing more. *)
Theorem C4_signing_commands_in_order
    appFile pkgFile (commonConfig : CommonConfig) macOSConfig (w : World)
    (application : string) :
  certNameApplication macOSConfig = Some application ->
  application <> "" ->
  (forall command fs, fst (run command fs) = Ok tt) ->
  let name := toString (obj_get "name" commonConfig) in
  let perPath :=
    map (fun fileName =>
           codesign application "resources/macos/entitlements/child.plist"
             (appFile ++ "/Contents/" ++ fileName))
        (filesToSign name) in
  let done := manualMacOSSign run appFile pkgFile commonConfig macOSConfig w in
  fst done = Ok tt /\
  (forall installer,
     certNameInstaller macOSConfig = Some installer -> installer <> "" ->
     shell (snd done)
     = (shell w ++ perPath ++
        [ codesign application "resources/macos/entitlements/child.plist"
            (appFile ++ "/Contents/MacOS/" ++ name);
          codesign application "resources/macos/entitlements/parent.plist" appFile;
          productbuild appFile installer pkgFile ])%list) /\
  (truthy (certNameInstaller macOSConfig) = false ->
     shell (snd done) = (shell w ++ perPath)%list).
Proof.
  intros Happ Hne Hrun name perPath done.
  subst done. unfold manualMacOSSign. fold name.
  rewrite Happ, (truthy_nonempty _ Hne). cbn [default from_option id].
  destruct (for_of_execSync
              (fun fileName =>
                 codesign application inheritEntitlements
                   (appFile ++ "/Contents/" ++ fileName))
              (filesToSign name) w Hrun) as [fs Hloop].
  rewrite (bind_ok _ _ _ _ _ Hloop).
  destruct (truthy (certNameInstaller macOSConfig)) eqn:Hinstaller.
  - destruct (truthy_Some _ Hinstaller) as (installer & Hsome & _).
    rewrite Hsome. cbn [default from_option id].
    destruct (execSync_ok
                (codesign application inheritEntitlements
                   (appFile ++ "/Contents/MacOS/" ++ name))
                {| files := fs; env := env w; shell := (shell w ++ perPath)%list |} Hrun)
      as [fs1 H1].
    rewrite (bind_ok _ _ _ _ _ H1).
    destruct (execSync_ok (codesign application mainEntitlements appFile)
                {| files := fs1; env := env w;
                   shell := ((shell w ++ perPath) ++
                             [codesign application inheritEntitlements
                                (appFile ++ "/Contents/MacOS/" ++ name)])%list |} Hrun)
      as [fs2 H2].
    cbn [env shell] in H2. rewrite (bind_ok _ _ _ _ _ H2).
    destruct (execSync_ok (productbuild appFile installer pkgFile)
                {| files := fs2; env := env w;
                   shell := (((shell w ++ perPath) ++
                              [codesign application inheritEntitlements
                                 (appFile ++ "/Contents/MacOS/" ++ name)]) ++
                             [codesign application mainEntitlements appFile])%list |} Hrun)
      as [fs3 H3].
    cbn [env shell] in H3. rewrite H3. cbn [fst snd shell].
    split; [reflexivity |]. split; [| discriminate].
    intros installer' Hsome' _. injection Hsome' as <-.
    rewrite <- !app_assoc. reflexivity.
  - cbn [fst snd shell mret M_ret].
    split; [reflexivity |]. split; [| reflexivity].
    intros installer Hsome Hne'. rewrite Hsome, (truthy_nonempty _ Hne') in Hinstaller.
    discriminate.
Qed.

(** C9. With no application certificate name ([null]), [manualMacOSSign]
    returns at once: it hands nothing to the shell, builds no installer
    package and leaves files, environment and shell history as they
    were, whatever the installer certificate name is. *)
Theorem C9_no_application_certificate_no_effect
    appFile pkgFile (commonConfig : CommonConfig) macOSConfig (w : World) :
  certNameApplication macOSConfig = None ->
  manualMacOSSign run appFile pkgFile commonConfig macOSConfig w = (Ok tt, w).
Proof. intros Hnone. unfold manualMacOSSign. rewrite Hnone. reflexivity. Qed.

(** C8. With none of MACOS_BUNDLE_ID, MACOS_CERTIFICATE_NAME_APPLICATION,
    MACOS_CERTIFICATE_NAME_INSTALLER, MACOS_NOTARIZE_APPLE_ID and
    MACOS_NOTARIZE_APPLE_PASSWORD set, and the configuration loaded,
    [buildMacOSConfig] returns the default [macOSConfig]: the default
    bundle id and category, both certificate names and both notarization
    credentials null. It changes nothing. *)
Theorem C8_defaults_without_environment
    wireJsonPath envFilePath signManually (w : World) (text : string)
    (descriptor : json) (commonConfig : CommonConfig) :
  env w !! "MACOS_BUNDLE_ID" = None ->
  env w !! "MACOS_CERTIFICATE_NAME_APPLICATION" = None ->
  env w !! "MACOS_CERTIFICATE_NAME_INSTALLER" = None ->
  env w !! "MACOS_NOTARIZE_APPLE_ID" = None ->
  env w !! "MACOS_NOTARIZE_APPLE_PASSWORD" = None ->
  files w !! resolve wireJsonPath = Some text ->
  JSON_parse text = Some descriptor ->
  envOverrides (resolve envFilePath) (files w) (env w) descriptor = Ok commonConfig ->
  exists packagerConfig,
    buildMacOSConfig JSON_parse resolve envOverrides wireJsonPath envFilePath signManually w
    = (Ok ({| bundleId := "com.wearezeta.zclient.mac";
              category := "public.app-category.social-networking";
              certNameApplication := None;
              certNameInstaller := None;
              notarizeAppleId := None;
              notarizeApplePassword := None |},
           packagerConfig), w).
Proof.
  intros Hid Happ Hinst Hnid Hnpw Hfile Hparse Hmerge.
  unfold buildMacOSConfig.
  rewrite (bind_ok _ _ _ _ _
             (getCommonConfig_loaded _ _ _ _ _ _ Hfile Hparse Hmerge)).
  cbv beta iota.
  unfold mbind, M_bind, getenv.
  rewrite Hid, Happ, Hinst, Hnid, Hnpw.
  eexists. reflexivity.
Qed.

End packager_facts.

(** * The statements on sample inputs *)

Import ContextMenu Json MacOS Samples.

(** C2 as stated fails: for the suggestions "hte", "the" the two leading
    items are labelled "hte", "the", which is the list as passed and not
    its reversal. *)
Lemma C2_leading_items_not_reversed :
  exists items,
    popup (handleContextMenu keyText trimAscii textareaEvent
             (misspelled ["hte"; "the"]) noSelection initialState)
    = Some (popupTextMenu items) /\
    map label (firstn 2 items) = [Some "hte"; Some "the"] /\
    map label (firstn 2 items) <> map Some (rev ["hte"; "the"]).
Proof.
  eexists. split; [reflexivity |]. split; [reflexivity |].
  simpl. intros H. discriminate H.
Qed.

Lemma C2_suggestions_lead_in_given_order_witness :
  popup (handleContextMenu keyText trimAscii textareaEvent
           (misspelled ["hte"; "the"]) noSelection initialState)
  = Some (popupTextMenu
            (suggestionItem "hte" :: suggestionItem "the" :: separatorItem
               :: textMenuTemplate keyText)).
Proof.
  destruct (C2_suggestions_lead_in_given_order keyText trimAscii textareaEvent
              (misspelled ["hte"; "the"]) noSelection initialState)
    as (H & _ & _).
  - left. reflexivity.
  - discriminate.
  - discriminate.
  - exact H.
Defined.

Lemma C7_no_suggestions_placeholder_witness :
  popup (handleContextMenu keyText trimAscii textareaEvent
           (misspelled []) noSelection initialState)
  = Some (popupTextMenu
            ({| click := None; enabled := Some false; label := Some "No suggestions";
                role := None; type := None |}
               :: separatorItem :: textMenuTemplate keyText)).
Proof.
  destruct (C7_no_suggestions_placeholder keyText trimAscii textareaEvent
              (misspelled []) noSelection initialState
              {| suggestions := None; misspelledWord := Some "hte" |})
    as (H & _).
  - left. reflexivity.
  - discriminate.
  - reflexivity.
  - reflexivity.
  - left. reflexivity.
  - exact H.
Defined.

Lemma C6_anchor_href_without_mailto_witness :
  copyContext (after (handleContextMenu keyText trimAscii (anchorEvent "mailto:a@b.com")
                        noParams noSelection initialState))
  = "a@b.com" /\
  copyContext (after (handleContextMenu keyText trimAscii (anchorEvent "https://wire.com/")
                        noParams noSelection initialState))
  = "https://wire.com/".
Proof.
  split.
  - destruct (C6_anchor_href_without_mailto keyText trimAscii
                (anchorEvent "mailto:a@b.com") noParams noSelection initialState)
      as (_ & H & _ & _); [reflexivity | reflexivity | reflexivity |].
    apply H. reflexivity.
  - destruct (C6_anchor_href_without_mailto keyText trimAscii
                (anchorEvent "https://wire.com/") noParams noSelection initialState)
      as (_ & _ & H & _); [reflexivity | reflexivity | reflexivity |].
    apply H. reflexivity.
Defined.

Lemma C10_image_branch_needs_message_body_witness :
  let o := handleContextMenu keyText trimAscii detailImageEvent noParams noSelection
             initialState in
  defaultPrevented o = true /\ completion o = ContextMenu.TypeError /\ popup o = None.
Proof.
  destruct (C10_image_branch_needs_message_body keyText trimAscii detailImageEvent
              noParams noSelection initialState) as (H & _).
  - discriminate.
  - discriminate.
  - right. reflexivity.
  - apply H. reflexivity.
Defined.

(** C3, where the code departs from it. Right-click an image whose
    message body carries the time stamp "T1", then an image whose message
    body has no [time] element: the image menu pops up with the second
    image, but the time stamp is still "T1", and "save picture" would
    pass it on with the second image's address. *)
Theorem C3_timestamp_of_previous_click_observable :
  let first := handleContextMenu keyText trimAscii
                 (imageEvent "https://x/first.png" [ {| dataset_timestamp := Some "T1" |} ])
                 noParams noSelection initialState in
  let second := handleContextMenu keyText trimAscii
                  (imageEvent "https://x/second.png" [])
                  noParams noSelection (after first) in
  popup second = Some popupImageMenu /\
  imageMenu_image (after second) = Some "https://x/second.png" /\
  imageMenu_timestamp (after second) = Some "T1" /\
  map (activate (after second)) (imageMenu keyText)
  = [Some (savePicture "https://x/second.png" (Some "T1"))].
Proof. repeat split. Qed.

(** C5, where the code departs from it. For an image of class
    [detail-view-image] with no [message-body] element around it, the
    handler calls [preventDefault] and then throws: the default action
    is suppressed although no menu is shown. *)
Theorem C5_default_prevented_without_menu :
  let o := handleContextMenu keyText trimAscii detailImageEvent noParams noSelection
             initialState in
  defaultPrevented o = true /\ popup o = None /\ completion o = ContextMenu.TypeError.
Proof. repeat split. Qed.

(** C1 as stated fails: a [package.json] written on one line is, after a
    successful build, laid out over several lines. *)
Lemma C1_compact_manifest_not_byte_identical :
  let w := repository packageJsonCompact in
  let done :=
    buildMacOSWrapper parsePlain stringify asciiUnits writing
        resolveAbsolute joinSegments noOverrides
      (quietTool (one "wrap/build/Wire-mas-x64")) (quietTool tt) (quietTool tt)
      (quietTool tt) sampleOptions (certificates None None)
      "/repo/package.json" "/repo/wire.json" "/repo/.env" false w in
  fst done = Ok tt /\
  files w !! "/repo/package.json" = Some packageJsonCompact /\
  files (snd done) !! "/repo/package.json" = Some packageJsonText /\
  files (snd done) !! "/repo/package.json" <> files w !! "/repo/package.json".
Proof.
  repeat split; try (vm_compute; reflexivity).
  vm_compute. intros H. discriminate H.
Qed.

Lemma C1_manifests_restored_as_parsed_witness :
  let w := repository packageJsonText in
  let done :=
    buildMacOSWrapper parsePlain stringify asciiUnits writing
        resolveAbsolute joinSegments noOverrides
      failingPackager (quietTool tt) (quietTool tt)
      (quietTool tt) sampleOptions (certificates (Some "Application") (Some "Installer"))
      "/repo/package.json" "/repo/wire.json" "/repo/.env" true w in
  fst done = Throw ToolError /\
  files (snd done) !! "/repo/package.json" = files w !! "/repo/package.json" /\
  files (snd done) !! "/repo/wire.json" = files w !! "/repo/wire.json".
Proof.
  split; [vm_compute; reflexivity |].
  destruct (C1_manifests_restored_as_parsed parsePlain stringify asciiUnits writing
      resolveAbsolute joinSegments noOverrides
              failingPackager (quietTool tt) (quietTool tt) (quietTool tt)
              sampleOptions (certificates (Some "Application") (Some "Installer"))
              "/repo/package.json" "/repo/wire.json" "/repo/.env" true
              (repository packageJsonText) packageJsonText wireJsonText
              (JObject [("name", JString "wire-desktop"); ("version", JString "3.0.0");
                        ("private", JBool true)])
              (JObject [("buildDir", JString "wrap/build"); ("distDir", JString "wrap/dist");
                        ("name", JString "Wire"); ("version", JString "3.0.0")])
              [("buildDir", JString "wrap/build"); ("distDir", JString "wrap/dist");
               ("name", JString "Wire"); ("version", JString "3.0.0")])
    as (_ & _ & Hpackage & Hwire); try (vm_compute; reflexivity).
  split; [apply Hpackage | apply Hwire]; vm_compute; reflexivity.
Defined.

(** C4 as stated fails: with an application certificate name but no
    installer certificate name, the shell receives the seventeen
    per-path calls only; no [productbuild] is issued. *)
Lemma C4_no_installer_certificate_no_productbuild :
  let done :=
    manualMacOSSign (quietTool tt) "wrap/build/Wire.app" "wrap/dist/Wire.pkg" wireConfig
      (certificates (Some "Application") None) emptyWorld in
  fst done = Ok tt /\
  length (shell (snd done)) = 17 /\
  existsb (String.prefix "productbuild") (shell (snd done)) = false.
Proof. repeat split; vm_compute; reflexivity. Qed.

Lemma C4_signing_commands_in_order_witness :
  let done :=
    manualMacOSSign (quietTool tt) "wrap/build/Wire.app" "wrap/dist/Wire.pkg" wireConfig
      (certificates (Some "Application") (Some "Installer")) emptyWorld in
  skipn 17 (shell (snd done))
  = [ "codesign --deep -fs 'Application' --entitlements 'resources/macos/entitlements/child.plist' 'wrap/build/Wire.app/Contents/MacOS/Wire'";
      "codesign --deep -fs 'Application' --entitlements 'resources/macos/entitlements/parent.plist' 'wrap/build/Wire.app'";
      "productbuild --component 'wrap/build/Wire.app' /Applications --sign 'Installer' 'wrap/dist/Wire.pkg'" ].
Proof.
  destruct (C4_signing_commands_in_order (quietTool tt)
              "wrap/build/Wire.app" "wrap/dist/Wire.pkg" wireConfig
              (certificates (Some "Application") (Some "Installer")) emptyWorld
              "Application") as (_ & H & _).
  - reflexivity.
  - discriminate.
  - reflexivity.
  - intros done. subst done. rewrite (H "Installer"); [| reflexivity | discriminate].
    vm_compute. reflexivity.
Defined.

Lemma C9_no_application_certificate_no_effect_witness :
  manualMacOSSign (quietTool tt) "wrap/build/Wire.app" "wrap/dist/Wire.pkg" wireConfig
    (certificates None (Some "Installer")) emptyWorld
  = (Ok tt, emptyWorld).
Proof.
  apply (C9_no_application_certificate_no_effect (quietTool tt)). reflexivity.
Defined.

Lemma C8_defaults_without_environment_witness :
  exists packagerConfig,
    buildMacOSConfig parsePlain resolveAbsolute noOverrides "/repo/wire.json" "/repo/.env" false
      (repository packageJsonText)
    = (Ok (certificates None None, packagerConfig), repository packageJsonText).
Proof.
  apply (C8_defaults_without_environment parsePlain resolveAbsolute noOverrides
           "/repo/wire.json" "/repo/.env" false (repository packageJsonText)
           wireJsonText
           (JObject [("buildDir", JString "wrap/build"); ("distDir", JString "wrap/dist");
                     ("name", JString "Wire"); ("version", JString "3.0.0")])
           [("buildDir", JString "wrap/build"); ("distDir", JString "wrap/dist");
            ("name", JString "Wire"); ("version", JString "3.0.0")]);
    vm_compute; reflexivity.
Defined.

(** * Further properties of the dispatcher *)

Section dispatcher_coverage.

Variable getText : string -> string.
Variable trim : string -> string.

(** Case analysis on every test the dispatcher makes. *)
Ltac dispatch :=
  unfold handleContextMenu;
  repeat match goal with
         | |- context [if ?c then _ else _] => destruct c eqn:?
         | |- context [match ?x with _ => _ end] => destruct x eqn:?
         end.

Lemma not_editable (e : HTMLElement) :
  nodeName e <> "TEXTAREA" -> nodeName e <> "INPUT" ->
  String.eqb (nodeName e) "TEXTAREA" || String.eqb (nodeName e) "INPUT" = false.
Proof.
  intros Harea Hinput. apply String.eqb_neq in Harea, Hinput.
  rewrite Harea, Hinput. reflexivity.
Qed.

Lemma no_image_class (e : HTMLElement) :
  contains e "image-element" = false -> contains e "detail-view-image" = false ->
  contains e "image-element" || contains e "detail-view-image" = false.
Proof. intros -> ->. reflexivity. Qed.

(** Climbing skips elements that are not of class [text]. *)
Lemma climb_through (between : list HTMLElement) (top : ParentNode) :
  Forall (fun e => contains e "text" = false) between ->
  climb (Dom.through between top) = climb top.
Proof.
  induction 1 as [| e between He _ IH]; simpl; [reflexivity |].
  rewrite He. exact IH.
Qed.

(** [closest] skips elements that do not have the class. *)
Lemma closest_above_through (cls : string) (between : list HTMLElement) (top : ParentNode) :
  Forall (fun e => contains e cls = false) between ->
  closest_above cls (Dom.through between top) = closest_above cls top.
Proof.
  induction 1 as [| e between He _ IH]; simpl; [reflexivity |].
  rewrite He. exact IH.
Qed.

(** X5. A dispatch that does not pop up the default menu leaves
    [copyContext] empty: whatever an earlier click put there is gone,
    also when nothing is shown or when the handler throws. *)
Theorem copyContext_empty_unless_default_menu event params window m :
  popup (handleContextMenu getText trim event params window m) <> Some popupDefaultMenu ->
  copyContext (after (handleContextMenu getText trim event params window m)) = "".
Proof. dispatch; simpl; intros H; try reflexivity; congruence. Qed.

(** X6. For a target that is neither editable, nor an image element, nor
    an anchor: with a non-empty selection, an element of class [text]
    gets the default menu, and whenever a menu is shown the text to copy
    is the selection, not any element's inner text. *)
Theorem selection_preferred_over_inner_text event params window m (selected : string) :
  nodeName (target event) <> "TEXTAREA" ->
  nodeName (target event) <> "INPUT" ->
  nodeName (target event) <> "A" ->
  contains (target event) "image-element" = false ->
  contains (target event) "detail-view-image" = false ->
  getSelection window = Some selected ->
  selected <> "" ->
  let o := handleContextMenu getText trim event params window m in
  (contains (target event) "text" = true -> popup o = Some popupDefaultMenu) /\
  (popup o <> None ->
     popup o = Some popupDefaultMenu /\ copyContext (after o) = selected).
Proof.
  intros Harea Hinput Hanchor Himage Hdetail Hselection Hselected o. subst o.
  unfold handleContextMenu.
  rewrite (not_editable _ Harea Hinput), (no_image_class _ Himage Hdetail).
  apply String.eqb_neq in Hanchor. rewrite Hanchor.
  unfold selectionText. rewrite Hselection. cbn [default from_option id].
  rewrite (truthy_nonempty _ Hselected).
  destruct (contains (target event) "text").
  - simpl. auto.
  - split; [discriminate |].
    destruct (climb (parentNode event)); simpl; intros H; auto; congruence.
Qed.

(** X7. A target that matches no test of its own, below an element of
    class [text] with only elements without that class in between: with
    an empty selection the default menu pops up and the text to copy is
    the trimmed inner text of that nearest such ancestor. *)
Theorem nearest_text_ancestor_supplies_copy_text
    event params window m (between : list HTMLElement) (e : HTMLElement) (up : ParentNode) :
  nodeName (target event) <> "TEXTAREA" ->
  nodeName (target event) <> "INPUT" ->
  nodeName (target event) <> "A" ->
  contains (target event) "image-element" = false ->
  contains (target event) "detail-view-image" = false ->
  contains (target event) "text" = false ->
  parentNode event = Dom.through between (parent e up) ->
  Forall (fun x => contains x "text" = false) between ->
  contains e "text" = true ->
  selectionText window = "" ->
  let o := handleContextMenu getText trim event params window m in
  defaultPrevented o = true /\
  popup o = Some popupDefaultMenu /\
  completion o = Normal /\
  copyContext (after o) = trim (innerText e).
Proof.
  intros Harea Hinput Hanchor Himage Hdetail Htext Hchain Hbetween He Hselection o.
  subst o. unfold handleContextMenu.
  rewrite (not_editable _ Harea Hinput), (no_image_class _ Himage Hdetail).
  apply String.eqb_neq in Hanchor. rewrite Hanchor, Htext, Hchain.
  rewrite (climb_through _ _ Hbetween). simpl climb. rewrite He, Hselection.
  simpl. auto.
Qed.

(** X8. A target that matches no test, with no element of class [text]
    between it and the document: nothing is shown, the default action is
    not suppressed, the handler returns, and of the module state only
    [copyContext] changes (it is emptied). *)
Theorem no_match_leaves_event_alone
    event params window m (between : list HTMLElement) :
  nodeName (target event) <> "TEXTAREA" ->
  nodeName (target event) <> "INPUT" ->
  nodeName (target event) <> "A" ->
  contains (target event) "image-element" = false ->
  contains (target event) "detail-view-image" = false ->
  contains (target event) "text" = false ->
  parentNode event = Dom.through between document ->
  Forall (fun x => contains x "text" = false) between ->
  let o := handleContextMenu getText trim event params window m in
  defaultPrevented o = false /\
  popup o = None /\
  completion o = Normal /\
  after o = set_copyContext "" m /\
  suggestionsAfter o = dictionarySuggestions params.
Proof.
  intros Harea Hinput Hanchor Himage Hdetail Htext Hchain Hbetween o.
  subst o. unfold handleContextMenu.
  rewrite (not_editable _ Harea Hinput), (no_image_class _ Himage Hdetail).
  apply String.eqb_neq in Hanchor. rewrite Hanchor, Htext, Hchain.
  rewrite (climb_through _ _ Hbetween). simpl. auto.
Qed.

(** X9. A target that matches no test, in a subtree whose parent chain
    ends at [null] without an element of class [text]: the walk stops at
    [null], which is not the document, so the default action is
    suppressed all the same. With a non-empty selection the default menu
    pops up for the selection; with an empty one the handler throws on
    [null.innerText] and shows nothing. *)
Theorem detached_target_suppresses_default
    event params window m (between : list HTMLElement) :
  nodeName (target event) <> "TEXTAREA" ->
  nodeName (target event) <> "INPUT" ->
  nodeName (target event) <> "A" ->
  contains (target event) "image-element" = false ->
  contains (target event) "detail-view-image" = false ->
  contains (target event) "text" = false ->
  parentNode event = Dom.through between null ->
  Forall (fun x => contains x "text" = false) between ->
  let o := handleContextMenu getText trim event params window m in
  defaultPrevented o = true /\
  (selectionText window <> "" ->
     popup o = Some popupDefaultMenu /\ completion o = Normal /\
     copyContext (after o) = selectionText window) /\
  (selectionText window = "" ->
     popup o = None /\ completion o = ContextMenu.TypeError).
Proof.
  intros Harea Hinput Hanchor Himage Hdetail Htext Hchain Hbetween o.
  subst o. unfold handleContextMenu.
  rewrite (not_editable _ Harea Hinput), (no_image_class _ Himage Hdetail).
  apply String.eqb_neq in Hanchor. rewrite Hanchor, Htext, Hchain.
  rewrite (climb_through _ _ Hbetween). simpl climb. cbv iota.
  destruct (String.eqb_spec (selectionText window) "") as [Hempty | Hfull].
  - rewrite Hempty. simpl. repeat split; congruence.
  - rewrite (truthy_nonempty _ Hfull). simpl. repeat split; congruence.
Qed.

(** X10. An image element below a [message-body] element, with only
    elements without that class in between: the image menu pops up, its
    image is the target's [src] and its time stamp is the
    [data-timestamp] of the first [time] element of that nearest message
    body (undefined when that element has none); [copyContext] is
    empty. *)
Theorem image_state_from_nearest_message_body
    event params window m (between : list HTMLElement) (body : HTMLElement)
    (up : ParentNode) (first : TimeElement) (others : list TimeElement) :
  nodeName (target event) <> "TEXTAREA" ->
  nodeName (target event) <> "INPUT" ->
  contains (target event) "image-element" = true
    \/ contains (target event) "detail-view-image" = true ->
  contains (target event) "message-body" = false ->
  parentNode event = Dom.through between (parent body up) ->
  Forall (fun x => contains x "message-body" = false) between ->
  contains body "message-body" = true ->
  times body = first :: others ->
  let o := handleContextMenu getText trim event params window m in
  popup o = Some popupImageMenu /\
  imageMenu_image (after o) = src (target event) /\
  imageMenu_timestamp (after o) = dataset_timestamp first /\
  copyContext (after o) = "".
Proof.
  intros Harea Hinput Hclass Hself Hchain Hbetween Hbody Htimes o.
  subst o. unfold handleContextMenu.
  rewrite (not_editable _ Harea Hinput).
  assert (Hcond : contains (target event) "image-element"
                  || contains (target event) "detail-view-image" = true).
  { destruct Hclass as [-> | ->]; [reflexivity | apply orb_true_r]. }
  rewrite Hcond. unfold closest. rewrite Hself, Hchain.
  rewrite (closest_above_through _ _ _ Hbetween). simpl closest_above.
  rewrite Hbody, Htimes. simpl. auto.
Qed.

(** X11. The image test comes before the anchor and text tests: an
    element of an image class that is not editable never gets the
    default menu, whatever its tag, [href] and other classes are; its
    [href] and text are not captured ([copyContext] stays empty) and the
    text menu is not rebuilt. *)
Theorem image_class_takes_precedence event params window m :
  nodeName (target event) <> "TEXTAREA" ->
  nodeName (target event) <> "INPUT" ->
  contains (target event) "image-element" = true
    \/ contains (target event) "detail-view-image" = true ->
  let o := handleContextMenu getText trim event params window m in
  popup o <> Some popupDefaultMenu /\
  copyContext (after o) = "" /\
  textMenu (after o) = textMenu m.
Proof.
  intros Harea Hinput Hclass o. subst o. unfold handleContextMenu.
  rewrite (not_editable _ Harea Hinput).
  assert (Hcond : contains (target event) "image-element"
                  || contains (target event) "detail-view-image" = true).
  { destruct Hclass as [-> | ->]; [reflexivity | apply orb_true_r]. }
  rewrite Hcond.
  destruct (closest event "message-body") as [body |]; simpl.
  - destruct (head (times body)); simpl; repeat split; discriminate.
  - repeat split; discriminate.
Qed.

(** X12. The dispatcher reverses the caller's suggestion array in place
    exactly when it builds suggestion items: for an editable target with
    a misspelled word, [params.dictionarySuggestions] is left reversed;
    without a misspelled word, and for every other target, it is left
    as it was. *)
Theorem suggestions_left_reversed event params window m :
  let o := handleContextMenu getText trim event params window m in
  let editable :=
    nodeName (target event) = "TEXTAREA" \/ nodeName (target event) = "INPUT" in
  (editable -> params_misspelledWord params <> "" ->
     suggestionsAfter o = rev (dictionarySuggestions params)) /\
  (editable -> params_misspelledWord params = "" ->
     suggestionsAfter o = dictionarySuggestions params) /\
  (~ editable -> suggestionsAfter o = dictionarySuggestions params).
Proof.
  intros o editable. subst o editable. split; [| split].
  - intros Heditable Hword. unfold handleContextMenu.
    assert (Hcond : String.eqb (nodeName (target event)) "TEXTAREA"
                    || String.eqb (nodeName (target event)) "INPUT" = true).
    { destruct Heditable as [-> | ->]; reflexivity. }
    rewrite Hcond. unfold createTextMenu. cbn [misspelledWord suggestions].
    rewrite (truthy_nonempty _ Hword).
    destruct (dictionarySuggestions params); reflexivity.
  - intros Heditable Hword. unfold handleContextMenu.
    assert (Hcond : String.eqb (nodeName (target event)) "TEXTAREA"
                    || String.eqb (nodeName (target event)) "INPUT" = true).
    { destruct Heditable as [-> | ->]; reflexivity. }
    rewrite Hcond. unfold createTextMenu. cbn [misspelledWord suggestions].
    rewrite Hword. reflexivity.
  - intros Hnot.
    assert (Hcond : String.eqb (nodeName (target event)) "TEXTAREA"
                    || String.eqb (nodeName (target event)) "INPUT" = false).
    { apply not_editable; intros H; apply Hnot; auto. }
    unfold handleContextMenu. rewrite Hcond.
    repeat match goal with
           | |- context [if ?c then _ else _] => destruct c
           | |- context [match ?x with _ => _ end] => destruct x
           end; reflexivity.
Qed.

(** X13. Every text menu ends with the five-item template. Without a
    misspelled word it is the template alone, whatever the suggestions
    are; with one, the template is preceded by a separator and, before
    that, by one item per suggestion, or by a single item when there is
    no suggestion. *)
Theorem text_menu_shape (dictionaryParams : DictionaryParams) :
  exists leading,
    fst (createTextMenu getText dictionaryParams)
    = (leading ++ textMenuTemplate getText)%list /\
    length (textMenuTemplate getText) = 5 /\
    (truthy (misspelledWord dictionaryParams) = false -> leading = []) /\
    (truthy (misspelledWord dictionaryParams) = true ->
       last leading noSuggestionsItem = separatorItem /\
       length leading
       = 1 + Nat.max 1 (length (default [] (suggestions dictionaryParams)))).
Proof.
  unfold createTextMenu.
  destruct (truthy (misspelledWord dictionaryParams)).
  - destruct (suggestions dictionaryParams) as [[| s array] |].
    + exists [noSuggestionsItem; separatorItem]. simpl.
      repeat split; discriminate.
    + exists (map suggestionItem (s :: array) ++ [separatorItem])%list.
      cbn [Nat.ltb Nat.leb length]. cbv iota.
      unfold buildFromTemplate. cbn [fst].
      rewrite fold_left_unshift, rev_involutive, <- app_assoc.
      split; [reflexivity |]. split; [reflexivity |]. split; [discriminate |].
      intros _. split.
      * apply last_last.
      * rewrite length_app, length_map. cbn [default from_option id length]. lia.
    + exists [noSuggestionsItem; separatorItem]. simpl.
      repeat split; discriminate.
  - exists []. simpl. repeat split; discriminate.
Qed.


End dispatcher_coverage.

(** * Further properties: saving a picture *)

Section picture_coverage.

Variable getText : string -> string.
Variable trim : string -> string.
Variable userAgent : string.
Variable SAVE_PICTURE : string.
Variable fetch : string -> list (string * string) -> option Picture.Response.

(** X15. After a right-click that pops up the image menu, choosing its
    item asks for the target's [src] (for the empty address when the
    target has none) with the configured user agent; when the response
    and its body arrive, exactly that body is sent on the save-picture
    channel together with the time stamp the menu holds, whatever the
    response's status is; when the request or the body fails, nothing is
    sent. *)
Theorem save_picture_sends_fetched_bytes event params window m :
  popup (handleContextMenu getText trim event params window m) = Some popupImageMenu ->
  let state := after (handleContextMenu getText trim event params window m) in
  let address := default "" (js_or (src (target event)) (Some "")) in
  map (activate state) (imageMenu getText)
  = [Some (ContextMenu.savePicture address (imageMenu_timestamp state))] /\
  (forall response bytes,
     fetch address [("User-Agent", userAgent)] = Some response ->
     Picture.arrayBuffer response = Some bytes ->
     Picture.clickSavePicture userAgent SAVE_PICTURE fetch state
     = Some {| Picture.channel := SAVE_PICTURE; Picture.picture := bytes;
               Picture.sentTimestamp := imageMenu_timestamp state |}) /\
  (fetch address [("User-Agent", userAgent)] = None ->
     Picture.clickSavePicture userAgent SAVE_PICTURE fetch state = None) /\
  (forall response,
     fetch address [("User-Agent", userAgent)] = Some response ->
     Picture.arrayBuffer response = None ->
     Picture.clickSavePicture userAgent SAVE_PICTURE fetch state = None).
Proof.
  intros Hpopup state address.
  assert (Himage : imageMenu_image state = src (target event)).
  { subst state. revert Hpopup. unfold handleContextMenu.
    repeat match goal with
           | |- context [if ?c then _ else _] => destruct c
           | |- context [match ?x with _ => _ end] => destruct x
           end; simpl; intros H; try discriminate H; reflexivity. }
  clearbody state.
  unfold Picture.clickSavePicture, Picture.savePicture.
  split; [| split; [| split]].
  - unfold imageMenu, buildFromTemplate, activate. cbn [map click].
    rewrite Himage. reflexivity.
  - intros response bytes Hfetch Hbody. rewrite Himage. fold address.
    rewrite Hfetch, Hbody. reflexivity.
  - intros Hfetch. rewrite Himage. fold address. rewrite Hfetch. reflexivity.
  - intros response Hfetch Hbody. rewrite Himage. fold address.
    rewrite Hfetch, Hbody. reflexivity.
Qed.

End picture_coverage.

(** * Further properties of the macOS packager *)

Section packager_coverage.

Variable JSON_parse : string -> option json.
Variable JSON_stringify : json -> string.
Variable codeUnits : string -> list string.
Variable writeFile :
  string -> string -> gmap string string -> result unit * gmap string string.
Variable resolve : string -> string.
Variable pathJoin : string -> string -> string.
Variable envOverrides :
  string -> gmap string string -> gmap string string -> json -> result CommonConfig.
Variable electronPackager :
  PackagerOptions -> gmap string string -> result Built * gmap string string.
Variable ensureDir : option json -> gmap string string -> result unit * gmap string string.
Variable buildPkg : FlatOptions -> gmap string string -> result unit * gmap string string.
Variable run : string -> gmap string string -> result unit * gmap string string.

Local Abbreviation readJson := (MacOS.readJson JSON_parse).
Local Abbreviation written := (MacOS.written JSON_stringify).
Local Abbreviation writeJson := (MacOS.writeJson JSON_stringify writeFile).
Local Abbreviation writable := (MacOS.writable writeFile).

Lemma bind_run {A B} (c : M A) (f : A -> M B) (w : World) :
  (c ≫= f) w
  = match c w with
    | (Ok a, w') => f a w'
    | (Throw e, w') => (Throw e, w')
    end.
Proof. reflexivity. Qed.

(** The loader changes nothing. *)
Lemma getCommonConfig_keeps_world envFile wireJson (w : World) :
  snd (getCommonConfig JSON_parse envOverrides envFile wireJson w) = w.
Proof.
  unfold getCommonConfig, mbind, M_bind, MacOS.readJson, merged, mret, M_ret.
  destruct (files w !! wireJson) as [text |]; [| reflexivity].
  destruct (JSON_parse text) as [descriptor |]; [| reflexivity].
  destruct (envOverrides envFile (files w) (env w) descriptor); reflexivity.
Qed.

Lemma getCommonConfig_missing envFile wireJson (w : World) :
  files w !! wireJson = None ->
  getCommonConfig JSON_parse envOverrides envFile wireJson w = (Throw ReadError, w).
Proof.
  intros Hmissing. unfold getCommonConfig, mbind, M_bind, MacOS.readJson.
  rewrite Hmissing. reflexivity.
Qed.

(** [x || null] is a non-empty string or [null]. *)
Lemma js_or_null (variable : option string) (v : string) :
  js_or variable None = Some v <-> variable = Some v /\ v <> "".
Proof.
  unfold js_or. destruct variable as [x |]; simpl.
  - destruct (String.eqb_spec x ""); simpl; split.
    + discriminate.
    + intros [Hx Hv]. congruence.
    + intros Hx. injection Hx as <-. auto.
    + intros [Hx _]. exact Hx.
  - split; [discriminate | intros [H _]; discriminate].
Qed.

(** X16. [buildMacOSConfig] only reads: whatever it returns or throws,
    files, environment and shell history are as before. When the
    descriptor file does not exist it throws. *)
Theorem buildMacOSConfig_only_reads wireJsonPath envFilePath signManually (w : World) :
  snd (buildMacOSConfig JSON_parse resolve envOverrides
      wireJsonPath envFilePath signManually w) = w /\
  (files w !! resolve wireJsonPath = None ->
   fst (buildMacOSConfig JSON_parse resolve envOverrides wireJsonPath envFilePath signManually w)
   = Throw ReadError).
Proof.
  unfold buildMacOSConfig. rewrite bind_run.
  pose proof (getCommonConfig_keeps_world (resolve envFilePath) (resolve wireJsonPath) w)
    as Hsame.
  split.
  - destruct (getCommonConfig JSON_parse envOverrides
      (resolve envFilePath) (resolve wireJsonPath) w)
      as [[[descriptor commonConfig] | e] w1]; simpl in Hsame; subst w1; reflexivity.
  - intros Hmissing. rewrite (getCommonConfig_missing _ _ _ Hmissing). reflexivity.
Qed.

(** What a returning call of [buildMacOSConfig] computed. *)
Ltac returned H :=
  unfold buildMacOSConfig in H; rewrite bind_run in H;
  let Hsame := fresh "Hsame" in
  match type of H with
  | context [getCommonConfig ?p ?o ?e ?j ?w] =>
      pose proof (getCommonConfig_keeps_world e j w) as Hsame;
      destruct (getCommonConfig p o e j w) as [[[? ?] | ?] ?]; [| discriminate H];
      simpl in Hsame; subst
  end;
  unfold mbind, M_bind, getenv, mret, M_ret in H;
  inversion H; subst; clear H.

(** X17. In the [macOSConfig] that [buildMacOSConfig] returns, each
    certificate name and notarization credential is the value of its
    environment variable when that is set and not empty, and null
    otherwise (an empty value counts as unset, so no field is ever the
    empty string); the bundle id is the value of MACOS_BUNDLE_ID under
    the same rule and the default bundle id otherwise; the category is
    fixed. *)
Theorem buildMacOSConfig_environment_overrides
    wireJsonPath envFilePath signManually (w w' : World)
    (macOSConfig : MacOSConfig) (packagerConfig : PackagerOptions) :
  buildMacOSConfig JSON_parse resolve envOverrides wireJsonPath envFilePath signManually w
  = (Ok (macOSConfig, packagerConfig), w') ->
  (forall v, certNameApplication macOSConfig = Some v <->
             env w !! "MACOS_CERTIFICATE_NAME_APPLICATION" = Some v /\ v <> "") /\
  (forall v, certNameInstaller macOSConfig = Some v <->
             env w !! "MACOS_CERTIFICATE_NAME_INSTALLER" = Some v /\ v <> "") /\
  (forall v, notarizeAppleId macOSConfig = Some v <->
             env w !! "MACOS_NOTARIZE_APPLE_ID" = Some v /\ v <> "") /\
  (forall v, notarizeApplePassword macOSConfig = Some v <->
             env w !! "MACOS_NOTARIZE_APPLE_PASSWORD" = Some v /\ v <> "") /\
  (forall v, env w !! "MACOS_BUNDLE_ID" = Some v -> v <> "" -> bundleId macOSConfig = v) /\
  (env w !! "MACOS_BUNDLE_ID" = None \/ env w !! "MACOS_BUNDLE_ID" = Some "" ->
   bundleId macOSConfig = "com.wearezeta.zclient.mac") /\
  bundleId macOSConfig <> "" /\
  category macOSConfig = "public.app-category.social-networking".
Proof.
  intros Hrun. returned Hrun.
  cbn [certNameApplication certNameInstaller notarizeAppleId notarizeApplePassword
       bundleId category macOsDefaultConfig].
  do 4 (split; [intros v; apply js_or_null |]).
  split; [| split; [| split; [| reflexivity]]].
  - intros v Hv Hne. rewrite Hv. unfold js_or. rewrite (truthy_nonempty _ Hne).
    reflexivity.
  - intros [-> | ->]; reflexivity.
  - unfold js_or. destruct (env w' !! "MACOS_BUNDLE_ID") as [v |]; simpl.
    + destruct (String.eqb_spec v ""); simpl; [discriminate | assumption].
    + discriminate.
Qed.

(** X18. The packager options that [buildMacOSConfig] returns follow the
    [macOSConfig] it returns with them: the app bundle id is the
    configured bundle id and the helper bundle id is that id followed by
    ".helper"; the packager is told to sign exactly when signing is not
    manual and an application certificate name is configured, with that
    name as identity and the parent and child entitlement files; it is
    told to notarize exactly when signing is not manual and both
    notarization credentials are configured, with those credentials. *)
Theorem buildMacOSConfig_packager_follows_config
    wireJsonPath envFilePath signManually (w w' : World)
    (macOSConfig : MacOSConfig) (packagerConfig : PackagerOptions) :
  buildMacOSConfig JSON_parse resolve envOverrides wireJsonPath envFilePath signManually w
  = (Ok (macOSConfig, packagerConfig), w') ->
  appBundleId packagerConfig = bundleId macOSConfig /\
  helperBundleId packagerConfig = bundleId macOSConfig ++ ".helper" /\
  osxSign packagerConfig
  = (if signManually then None
     else match certNameApplication macOSConfig with
          | Some certificate =>
              Some {| entitlements := "resources/macos/entitlements/parent.plist";
                      entitlements_inherit := "resources/macos/entitlements/child.plist";
                      identity := certificate |}
          | None => None
          end) /\
  osxNotarize packagerConfig
  = (if signManually then None
     else match notarizeAppleId macOSConfig, notarizeApplePassword macOSConfig with
          | Some id, Some password =>
              Some {| appleId := id; appleIdPassword := password |}
          | _, _ => None
          end).
Proof.
  intros Hrun. returned Hrun.
  cbn [certNameApplication notarizeAppleId notarizeApplePassword bundleId
       macOsDefaultConfig].
  set (bundle := default "" (js_or (env w' !! "MACOS_BUNDLE_ID") _)).
  clearbody bundle.
  destruct signManually; cbn [negb]; [repeat split |].
  unfold js_or.
  destruct (env w' !! "MACOS_CERTIFICATE_NAME_APPLICATION") as [application |];
    destruct (env w' !! "MACOS_NOTARIZE_APPLE_ID") as [id |];
    destruct (env w' !! "MACOS_NOTARIZE_APPLE_PASSWORD") as [password |];
    unfold truthy;
    repeat (cbv beta iota; cbn [negb andb];
            first
              [ match goal with
                | E : String.eqb ?x "" = _ |- context [String.eqb ?x ""] => rewrite E
                end
              | match goal with
                | |- context [String.eqb ?x ""] =>
                    let E := fresh "E" in destruct (String.eqb x "") eqn:E
                end ]);
    cbn; repeat split.
Qed.

(** The first steps of [buildMacOSWrapper] when both manifests are
    read: the goal is left at the [try] block, entered with the build's
    manifests written. *)
Ltac enter_try Hwire Hparse_wire Hmerge Hpackage Hparse_package Hwrite_package
    Hwrite_wire :=
  unfold buildMacOSWrapper;
  rewrite (bind_ok _ _ _ _ _
             (getCommonConfig_loaded _ _ _ _ _ _ _ _ Hwire Hparse_wire Hmerge));
  cbv beta iota;
  rewrite (bind_ok _ _ _ _ _ (readJson_parsed _ _ _ _ _ Hpackage Hparse_package));
  rewrite (writeJson_then _ _ _ _ _ _ Hwrite_package),
    (writeJson_then _ _ _ _ _ _ Hwrite_wire),
    (try_finally_two_writes _ _ _ _ _ _ _ _ Hwrite_package Hwrite_wire);
  rewrite bind_run; unfold external;
  cbn [files set_files].

Ltac finish_try :=
  unfold Manifests.restored, path_join, throw;
  cbn [fst snd set_files files env shell fmap option_fmap option_map head];
  try reflexivity.

(** X19. When [package.json] does not exist, [buildMacOSWrapper] throws
    before it has written anything or started the packager: files,
    environment and shell history are as before. *)
Theorem buildMacOSWrapper_missing_package_json
    packagerConfig macOSConfig packageJsonPath wireJsonPath envFilePath signManually
    (w : World) :
  files w !! resolve packageJsonPath = None ->
  exists e,
    buildMacOSWrapper JSON_parse JSON_stringify codeUnits writeFile
        resolve pathJoin envOverrides electronPackager ensureDir buildPkg
      run packagerConfig macOSConfig packageJsonPath wireJsonPath envFilePath
      signManually w
    = (Throw e, w).
Proof.
  intros Hmissing. unfold buildMacOSWrapper. rewrite bind_run.
  pose proof (getCommonConfig_keeps_world (resolve envFilePath) (resolve wireJsonPath) w)
    as Hsame.
  destruct (getCommonConfig JSON_parse envOverrides (resolve envFilePath) (resolve wireJsonPath) w)
    as [[[descriptor commonConfig] | e] w1]; simpl in Hsame; subst w1.
  - rewrite bind_run. unfold MacOS.readJson. rewrite Hmissing. exists ReadError.
    reflexivity.
  - exists e. reflexivity.
Qed.

(** X20. Let both manifests be read and let the writes to them succeed.
    When the packager fails, [buildMacOSWrapper] fails with the
    packager's error. The packager has run on files in which
    [package.json] carries the build's product name and version and the
    descriptor is the merged configuration; afterwards the two manifests
    are written back, every other file is as the packager left it, and
    nothing was signed: no command went to the shell. *)
Theorem buildMacOSWrapper_packager_error_propagates
    packagerConfig macOSConfig packageJsonPath wireJsonPath envFilePath signManually
    (w : World) (packageText wireText : string) (package descriptor : json)
    (commonConfig : CommonConfig) (e : Error) (left : gmap string string) :
  files w !! resolve packageJsonPath = Some packageText ->
  files w !! resolve wireJsonPath = Some wireText ->
  JSON_parse packageText = Some package ->
  JSON_parse wireText = Some descriptor ->
  envOverrides (resolve envFilePath) (files w) (env w) descriptor = Ok commonConfig ->
  writable (resolve packageJsonPath) ->
  writable (resolve wireJsonPath) ->
  electronPackager packagerConfig
    (Manifests.building JSON_stringify codeUnits (resolve packageJsonPath)
       (resolve wireJsonPath) package commonConfig (files w))
  = (Throw e, left) ->
  buildMacOSWrapper JSON_parse JSON_stringify codeUnits writeFile
      resolve pathJoin envOverrides electronPackager ensureDir buildPkg
    run packagerConfig macOSConfig packageJsonPath wireJsonPath envFilePath
    signManually w
  = (Throw e,
     {| files := Manifests.restored JSON_stringify (resolve packageJsonPath)
                   (resolve wireJsonPath) package descriptor left;
        env := env w; shell := shell w |}).
Proof.
  intros Hpackage Hwire Hparse_package Hparse_wire Hmerge Hwrite_package Hwrite_wire
    Hpackager.
  unfold Manifests.building, Manifests.buildManifest in Hpackager.
  enter_try Hwire Hparse_wire Hmerge Hpackage Hparse_package Hwrite_package Hwrite_wire.
  rewrite Hpackager. finish_try.
Qed.

(** X21. Let both manifests be read and let the writes to them succeed.
    Without an installer certificate name, a build whose packager
    succeeds ends there: [buildMacOSWrapper] returns, no directory is
    made, no installer is built and nothing is signed; the two manifests
    are written back and every other file is as the packager left it. *)
Theorem buildMacOSWrapper_without_installer_certificate
    packagerConfig macOSConfig packageJsonPath wireJsonPath envFilePath signManually
    (w : World) (packageText wireText : string) (package descriptor : json)
    (commonConfig : CommonConfig) (built : Built) (left : gmap string string) :
  files w !! resolve packageJsonPath = Some packageText ->
  files w !! resolve wireJsonPath = Some wireText ->
  JSON_parse packageText = Some package ->
  JSON_parse wireText = Some descriptor ->
  envOverrides (resolve envFilePath) (files w) (env w) descriptor = Ok commonConfig ->
  writable (resolve packageJsonPath) ->
  writable (resolve wireJsonPath) ->
  truthy (certNameInstaller macOSConfig) = false ->
  electronPackager packagerConfig
    (Manifests.building JSON_stringify codeUnits (resolve packageJsonPath)
       (resolve wireJsonPath) package commonConfig (files w))
  = (Ok built, left) ->
  buildMacOSWrapper JSON_parse JSON_stringify codeUnits writeFile
      resolve pathJoin envOverrides electronPackager ensureDir buildPkg
    run packagerConfig macOSConfig packageJsonPath wireJsonPath envFilePath
    signManually w
  = (Ok tt,
     {| files := Manifests.restored JSON_stringify (resolve packageJsonPath)
                   (resolve wireJsonPath) package descriptor left;
        env := env w; shell := shell w |}).
Proof.
  intros Hpackage Hwire Hparse_package Hparse_wire Hmerge Hwrite_package Hwrite_wire
    Hinstaller Hpackager.
  unfold Manifests.building, Manifests.buildManifest in Hpackager.
  enter_try Hwire Hparse_wire Hmerge Hpackage Hparse_package Hwrite_package Hwrite_wire.
  rewrite Hpackager, Hinstaller. finish_try.
Qed.

(** X22. Let both manifests be read and let the writes to them succeed.
    When the packager answers with an empty list of build directories
    and an installer certificate name is configured, the build fails
    with a TypeError at the first [path.join] (its first argument is
    undefined): no directory is made, no installer is built, nothing is
    signed, and the manifests are written back. *)
Theorem buildMacOSWrapper_empty_build_list
    packagerConfig macOSConfig packageJsonPath wireJsonPath envFilePath signManually
    (w : World) (packageText wireText : string) (package descriptor : json)
    (commonConfig : CommonConfig) (left : gmap string string) :
  files w !! resolve packageJsonPath = Some packageText ->
  files w !! resolve wireJsonPath = Some wireText ->
  JSON_parse packageText = Some package ->
  JSON_parse wireText = Some descriptor ->
  envOverrides (resolve envFilePath) (files w) (env w) descriptor = Ok commonConfig ->
  writable (resolve packageJsonPath) ->
  writable (resolve wireJsonPath) ->
  truthy (certNameInstaller macOSConfig) = true ->
  electronPackager packagerConfig
    (Manifests.building JSON_stringify codeUnits (resolve packageJsonPath)
       (resolve wireJsonPath) package commonConfig (files w))
  = (Ok (several []), left) ->
  buildMacOSWrapper JSON_parse JSON_stringify codeUnits writeFile
      resolve pathJoin envOverrides electronPackager ensureDir buildPkg
    run packagerConfig macOSConfig packageJsonPath wireJsonPath envFilePath
    signManually w
  = (Throw MacOS.TypeError,
     {| files := Manifests.restored JSON_stringify (resolve packageJsonPath)
                   (resolve wireJsonPath) package descriptor left;
        env := env w; shell := shell w |}).
Proof.
  intros Hpackage Hwire Hparse_package Hparse_wire Hmerge Hwrite_package Hwrite_wire
    Hinstaller Hpackager.
  unfold Manifests.building, Manifests.buildManifest in Hpackager.
  enter_try Hwire Hparse_wire Hmerge Hpackage Hparse_package Hwrite_package Hwrite_wire.
  rewrite Hpackager, Hinstaller. finish_try.
Qed.

(** Steps that leave the shell history alone. *)
Lemma external_keeps_shell {A}
    (tool : gmap string string -> result A * gmap string string) (w : World) :
  shell (snd (external tool w)) = shell w.
Proof. unfold external. destruct (tool (files w)). reflexivity. Qed.

Lemma bind_keeps_shell {A B} (c : M A) (f : A -> M B) (w : World) :
  shell (snd (c w)) = shell w ->
  (forall a w', shell (snd (f a w')) = shell w') ->
  shell (snd ((c ≫= f) w)) = shell w.
Proof.
  intros Hc Hf. rewrite bind_run. destruct (c w) as [[a | e] w1]; simpl in Hc |- *.
  - rewrite Hf. exact Hc.
  - exact Hc.
Qed.

Lemma try_finally_keeps_shell {A} (body : M A) (finalizer : M unit) (w : World) :
  shell (snd (body w)) = shell w ->
  (forall w', shell (snd (finalizer w')) = shell w') ->
  shell (snd (try_finally body finalizer w)) = shell w.
Proof.
  intros Hbody Hfinalizer. unfold try_finally.
  destruct (body w) as [r w1]. simpl in Hbody.
  specialize (Hfinalizer w1).
  destruct (finalizer w1) as [[[] | e] w2]; simpl in Hfinalizer |- *; congruence.
Qed.

Lemma readJson_keeps_shell (file : string) (w : World) :
  shell (snd (readJson file w)) = shell w.
Proof.
  unfold MacOS.readJson. destruct (files w !! file) as [text |]; [| reflexivity].
  destruct (JSON_parse text); reflexivity.
Qed.

Lemma path_join_keeps_shell (a : option json) (b : string) (w : World) :
  shell (snd (path_join pathJoin a b w)) = shell w.
Proof. unfold path_join. destruct a as [[] |]; reflexivity. Qed.

(** X23. [buildMacOSWrapper] hands commands to the shell only on the
    manual signing path with an installer certificate name: when signing
    is not manual, or no installer certificate name is configured, the
    shell history after the call is the one before it, however the
    packager and the other tools behave. *)
Theorem buildMacOSWrapper_shell_only_when_signing_manually
    packagerConfig macOSConfig packageJsonPath wireJsonPath envFilePath signManually
    (w : World) :
  signManually = false \/ truthy (certNameInstaller macOSConfig) = false ->
  shell (snd (buildMacOSWrapper JSON_parse JSON_stringify codeUnits writeFile
      resolve pathJoin envOverrides electronPackager ensureDir
                buildPkg run packagerConfig macOSConfig packageJsonPath wireJsonPath
                envFilePath signManually w))
  = shell w.
Proof.
  intros Hpath. unfold buildMacOSWrapper.
  apply bind_keeps_shell; [rewrite getCommonConfig_keeps_world; reflexivity |].
  intros [descriptor commonConfig] w1.
  apply bind_keeps_shell; [apply readJson_keeps_shell |].
  intros package w2.
  apply bind_keeps_shell; [apply external_keeps_shell |]. intros _ w3.
  apply bind_keeps_shell; [apply external_keeps_shell |]. intros _ w4.
  apply try_finally_keeps_shell.
  - apply bind_keeps_shell; [apply external_keeps_shell |].
    intros built w5.
    destruct (truthy (certNameInstaller macOSConfig)) eqn:Hinstaller; [| reflexivity].
    destruct Hpath as [-> | Hnone]; [| discriminate Hnone].
    apply bind_keeps_shell; [apply path_join_keeps_shell |]. intros appFile w6.
    apply bind_keeps_shell; [apply external_keeps_shell |]. intros _ w7.
    apply bind_keeps_shell; [apply path_join_keeps_shell |]. intros pkgFile w8.
    apply external_keeps_shell.
  - intros w5. apply bind_keeps_shell; [apply external_keeps_shell |].
    intros _ w6. apply external_keeps_shell.
Qed.

(** X24. A list of build directories counts for its first entry: a
    packager that answers with a non-empty list and one that answers
    with the list's first directory alone lead to the same build,
    whatever else is configured. *)
Theorem buildMacOSWrapper_build_list_counts_for_first
    (electronPackager' :
       PackagerOptions -> gmap string string -> result Built * gmap string string)
    packagerConfig macOSConfig packageJsonPath wireJsonPath envFilePath signManually
    (w : World) :
  (forall options fs,
     electronPackager' options fs
     = match electronPackager options fs with
       | (Ok (several (first :: _)), fs') => (Ok (one first), fs')
       | other => other
       end) ->
  buildMacOSWrapper JSON_parse JSON_stringify codeUnits writeFile
      resolve pathJoin envOverrides electronPackager ensureDir buildPkg
    run packagerConfig macOSConfig packageJsonPath wireJsonPath envFilePath
    signManually w
  = buildMacOSWrapper JSON_parse JSON_stringify codeUnits writeFile
      resolve pathJoin envOverrides electronPackager' ensureDir buildPkg
      run packagerConfig macOSConfig packageJsonPath wireJsonPath envFilePath
      signManually w.
Proof.
  intros Hfirst. unfold buildMacOSWrapper. rewrite !bind_run.
  destruct (getCommonConfig JSON_parse envOverrides (resolve envFilePath) (resolve wireJsonPath) w)
    as [[[descriptor commonConfig] | e] w1]; [| reflexivity].
  rewrite !bind_run.
  destruct (readJson (resolve packageJsonPath) w1) as [[package | e] w2];
    [| reflexivity].
  rewrite !bind_run.
  destruct (writeJson (resolve packageJsonPath) _ w2) as [[[] | e] w3]; [| reflexivity].
  rewrite !bind_run.
  destruct (writeJson (resolve wireJsonPath) _ w3) as [[[] | e] w4]; [| reflexivity].
  unfold try_finally. rewrite !bind_run.
  unfold external. cbn [files set_files]. rewrite Hfirst.
  destruct (electronPackager packagerConfig _) as [[[dir | [| first dirs]] | e] left];
    reflexivity.
Qed.


Lemma for_of_map_app {A} (g : A -> string) (xs : list A) (ys : list string) (w : World) :
  for_of (map g xs ++ ys)%list (execSync run) w
  = (for_of xs (fun x => execSync run (g x)) ;; for_of ys (execSync run)) w.
Proof.
  revert w. induction xs as [| x xs IH]; intros w.
  - reflexivity.
  - cbn [map app for_of]. rewrite !bind_run.
    destruct (execSync run (g x) w) as [[[] | e] w1]; [| reflexivity].
    rewrite IH, bind_run. reflexivity.
Qed.

Lemma execSync_last (command : string) (w : World) :
  (execSync run command ;; mret tt) w = execSync run command w.
Proof.
  rewrite bind_run. destruct (execSync run command w) as [[[] | e] w1]; reflexivity.
Qed.

(** With both certificate names, a manual signing is the run of the
    fixed command list, each command through [execSync]. *)
Lemma manualMacOSSign_runs_commands
    appFile pkgFile (commonConfig : CommonConfig) macOSConfig (w : World)
    (application installer : string) :
  certNameApplication macOSConfig = Some application -> application <> "" ->
  certNameInstaller macOSConfig = Some installer -> installer <> "" ->
  manualMacOSSign run appFile pkgFile commonConfig macOSConfig w
  = for_of (Manifests.signingCommands appFile pkgFile
              (toString (obj_get "name" commonConfig)) application installer)
      (execSync run) w.
Proof.
  intros Happ Happ_ne Hinst Hinst_ne.
  unfold manualMacOSSign, Manifests.signingCommands.
  rewrite Happ, Hinst, (truthy_nonempty _ Happ_ne), (truthy_nonempty _ Hinst_ne).
  cbn [default from_option id].
  rewrite for_of_map_app, !bind_run.
  destruct (for_of (filesToSign _) _ w) as [[[] | e] w1]; [| reflexivity].
  cbn [for_of]. rewrite !bind_run.
  destruct (execSync run _ w1) as [[[] | e] w2]; [| reflexivity].
  rewrite !bind_run.
  destruct (execSync run _ w2) as [[[] | e] w3]; [| reflexivity].
  rewrite execSync_last. reflexivity.
Qed.


(** X26. A manual build with both certificate names, in which the
    manifests are read and the writes to them succeed, the packager
    answers with one build directory, the configuration names a
    distribution directory and every tool and command succeeds: the
    build returns, and the shell has received exactly the signing
    sequence for the app [<build directory>/<name>.app] and the package
    [<distribution directory>/<name>.pkg], both paths made by
    [path.join]. *)
Theorem buildMacOSWrapper_manual_signing
    packagerConfig macOSConfig packageJsonPath wireJsonPath envFilePath
    (w : World) (packageText wireText : string) (package descriptor : json)
    (commonConfig : CommonConfig) (left : gmap string string)
    (buildDir distDir application installer : string) :
  files w !! resolve packageJsonPath = Some packageText ->
  files w !! resolve wireJsonPath = Some wireText ->
  JSON_parse packageText = Some package ->
  JSON_parse wireText = Some descriptor ->
  envOverrides (resolve envFilePath) (files w) (env w) descriptor = Ok commonConfig ->
  writable (resolve packageJsonPath) ->
  writable (resolve wireJsonPath) ->
  certNameApplication macOSConfig = Some application -> application <> "" ->
  certNameInstaller macOSConfig = Some installer -> installer <> "" ->
  obj_get "distDir" commonConfig = Some (JString distDir) ->
  electronPackager packagerConfig
    (Manifests.building JSON_stringify codeUnits (resolve packageJsonPath)
       (resolve wireJsonPath) package commonConfig (files w))
  = (Ok (one buildDir), left) ->
  (forall directory fs, fst (ensureDir directory fs) = Ok tt) ->
  (forall command fs, fst (run command fs) = Ok tt) ->
  let name := toString (obj_get "name" commonConfig) in
  let done :=
    buildMacOSWrapper JSON_parse JSON_stringify codeUnits writeFile resolve pathJoin
      envOverrides electronPackager ensureDir buildPkg run packagerConfig macOSConfig
      packageJsonPath wireJsonPath envFilePath true w in
  fst done = Ok tt /\
  shell (snd done)
  = (shell w ++
     Manifests.signingCommands (pathJoin buildDir (name ++ ".app"))
       (pathJoin distDir (name ++ ".pkg")) name application installer)%list.
Proof.
  intros Hpackage Hwire Hparse_package Hparse_wire Hmerge Hwrite_package Hwrite_wire
    Happ Happ_ne Hinst Hinst_ne Hdist Hpackager Hensure Hrun name done.
  unfold Manifests.building, Manifests.buildManifest in Hpackager. subst done.
  unfold buildMacOSWrapper.
  rewrite (bind_ok _ _ _ _ _
             (getCommonConfig_loaded _ _ _ _ _ _ _ _ Hwire Hparse_wire Hmerge)).
  cbv beta iota.
  rewrite (bind_ok _ _ _ _ _ (readJson_parsed _ _ _ _ _ Hpackage Hparse_package)).
  rewrite (writeJson_then _ _ _ _ _ _ Hwrite_package),
    (writeJson_then _ _ _ _ _ _ Hwrite_wire).
  fold name.
  match goal with
  | |- context [try_finally ?body _ ?w2] =>
      assert (Hbody : exists fs,
                body w2
                = (Ok tt,
                   {| files := fs; env := env w;
                      shell := (shell w ++
                                Manifests.signingCommands
                                  (pathJoin buildDir (name ++ ".app"))
                                  (pathJoin distDir (name ++ ".pkg"))
                                  name application installer)%list |}))
  end.
  { rewrite bind_run. unfold external at 1. cbn [files set_files].
    rewrite Hpackager, Hinst, (truthy_nonempty _ Hinst_ne).
    cbn [fmap option_fmap option_map path_join]. rewrite bind_run. cbn [mret M_ret].
    rewrite bind_run. unfold external.
    cbn [files set_files].
    specialize (Hensure (obj_get "distDir" commonConfig) left).
    destruct (ensureDir (obj_get "distDir" commonConfig) left) as [r fs1].
    simpl in Hensure. subst r.
    rewrite Hdist. cbn [path_join]. rewrite bind_run. cbn [mret M_ret].
    rewrite (manualMacOSSign_runs_commands _ _ _ _ _ _ _ Happ Happ_ne Hinst Hinst_ne).
    fold name.
    match goal with
    | |- context [for_of ?commands _ ?w3] =>
        destruct (for_of_execSync run (fun c : string => c) commands w3 Hrun)
          as [fs2 Hloop]
    end.
    rewrite map_id in Hloop. exists fs2. exact Hloop. }
  destruct Hbody as [fs Hbody].
  rewrite (try_finally_two_writes _ _ _ _ _ _ _ _ Hwrite_package Hwrite_wire), Hbody.
  split; reflexivity.
Qed.

(** X27. The two writes that put the build's values into the manifests
    stand before the [try]: when the first succeeds and the second, the
    write of the descriptor, fails without touching the files,
    [buildMacOSWrapper] throws that error at once. The packager is not
    started, nothing is restored, and [package.json] is left holding the
    build's product name and version. *)
Theorem buildMacOSWrapper_descriptor_write_fails
    packagerConfig macOSConfig packageJsonPath wireJsonPath envFilePath signManually
    (w : World) (packageText wireText : string) (package descriptor : json)
    (commonConfig : CommonConfig) (e : Error) :
  files w !! resolve packageJsonPath = Some packageText ->
  files w !! resolve wireJsonPath = Some wireText ->
  JSON_parse packageText = Some package ->
  JSON_parse wireText = Some descriptor ->
  envOverrides (resolve envFilePath) (files w) (env w) descriptor = Ok commonConfig ->
  writable (resolve packageJsonPath) ->
  (forall text fs, writeFile (resolve wireJsonPath) text fs = (Throw e, fs)) ->
  buildMacOSWrapper JSON_parse JSON_stringify codeUnits writeFile resolve pathJoin
    envOverrides electronPackager ensureDir buildPkg run packagerConfig macOSConfig
    packageJsonPath wireJsonPath envFilePath signManually w
  = (Throw e,
     {| files :=
          <[resolve packageJsonPath :=
              written (Manifests.buildManifest codeUnits package commonConfig)]>
            (files w);
        env := env w; shell := shell w |}).
Proof.
  intros Hpackage Hwire Hparse_package Hparse_wire Hmerge Hwrite_package Hlocked.
  unfold buildMacOSWrapper.
  rewrite (bind_ok _ _ _ _ _
             (getCommonConfig_loaded _ _ _ _ _ _ _ _ Hwire Hparse_wire Hmerge)).
  cbv beta iota.
  rewrite (bind_ok _ _ _ _ _ (readJson_parsed _ _ _ _ _ Hpackage Hparse_package)).
  rewrite (writeJson_then _ _ _ _ _ _ Hwrite_package).
  rewrite bind_run. unfold MacOS.writeJson at 1. unfold external at 1.
  cbn [files set_files]. rewrite Hlocked. reflexivity.
Qed.

End packager_coverage.

(** * The further properties on sample inputs *)

Lemma image_fresh_witness :
  imageMenu_image
    (after (handleContextMenu keyText trimAscii
              (imageEvent "https://x/y.png" [ {| dataset_timestamp := Some "T" |} ])
              noParams noSelection usedState))
  = Some "https://x/y.png".
Proof.
  apply (image_fresh keyText trimAscii
           (imageEvent "https://x/y.png" [ {| dataset_timestamp := Some "T" |} ])
           noParams noSelection usedState).
  reflexivity.
Defined.

Lemma popup_prevents_default_witness :
  defaultPrevented (handleContextMenu keyText trimAscii (anchorEvent "https://wire.com/")
                      noParams noSelection usedState)
  = true.
Proof.
  apply (popup_prevents_default keyText trimAscii (anchorEvent "https://wire.com/")
           noParams noSelection usedState).
  discriminate.
Defined.

Lemma prevented_iff_popup_when_normal_witness :
  defaultPrevented (handleContextMenu keyText trimAscii plainEvent noParams noSelection
                      usedState) = true
  <-> popup (handleContextMenu keyText trimAscii plainEvent noParams noSelection
               usedState) <> None.
Proof.
  apply (prevented_iff_popup_when_normal keyText trimAscii plainEvent noParams
           noSelection usedState).
  reflexivity.
Defined.

Lemma copyContext_empty_unless_default_menu_witness :
  copyContext (after (handleContextMenu keyText trimAscii textareaEvent
                        (misspelled ["hte"; "the"]) noSelection usedState))
  = "".
Proof.
  apply (copyContext_empty_unless_default_menu keyText trimAscii textareaEvent
           (misspelled ["hte"; "the"]) noSelection usedState).
  discriminate.
Defined.

Lemma selection_preferred_over_inner_text_witness :
  let o := handleContextMenu keyText trimAscii (textEvent "  the whole message  ")
             noParams (selection "whole") usedState in
  popup o = Some popupDefaultMenu /\ copyContext (after o) = "whole".
Proof.
  destruct (selection_preferred_over_inner_text keyText trimAscii
              (textEvent "  the whole message  ") noParams (selection "whole") usedState
              "whole") as (_ & H); try discriminate; try reflexivity.
  apply H. discriminate.
Defined.

Lemma nearest_text_ancestor_supplies_copy_text_witness :
  let o := handleContextMenu keyText trimAscii (codeSpanEvent "  let x = 1  ")
             noParams noSelection usedState in
  popup o = Some popupDefaultMenu /\ copyContext (after o) = "let x = 1".
Proof.
  destruct (nearest_text_ancestor_supplies_copy_text keyText trimAscii
              (codeSpanEvent "  let x = 1  ") noParams noSelection usedState
              [ element "CODE" []; element "PRE" [] ]
              {| nodeName := "DIV"; classList := ["text"]; src := None; href := "";
                 innerText := "  let x = 1  "; times := [] |}
              (parent (element "BODY" []) (parent (element "HTML" []) document)))
    as (_ & Hpopup & _ & Hcopy); try discriminate; try reflexivity.
  - repeat constructor.
  - split; [exact Hpopup | exact Hcopy].
Defined.

Lemma no_match_leaves_event_alone_witness :
  let o := handleContextMenu keyText trimAscii plainEvent noParams (selection "picked")
             usedState in
  defaultPrevented o = false /\ popup o = None /\ copyContext (after o) = "" /\
  imageMenu_timestamp (after o) = Some "T0".
Proof.
  destruct (no_match_leaves_event_alone keyText trimAscii plainEvent noParams
              (selection "picked") usedState [ element "BODY" []; element "HTML" [] ])
    as (Hprevented & Hpopup & _ & Hafter & _); try discriminate; try reflexivity.
  - repeat constructor.
  - intros o. subst o. rewrite Hprevented, Hpopup, Hafter. repeat split.
Defined.

Lemma detached_target_suppresses_default_witness :
  let o := handleContextMenu keyText trimAscii detachedEvent noParams noSelection
             usedState in
  defaultPrevented o = true /\ popup o = None /\ completion o = ContextMenu.TypeError.
Proof.
  destruct (detached_target_suppresses_default keyText trimAscii detachedEvent noParams
              noSelection usedState [ element "DIV" [] ])
    as (Hprevented & _ & Hempty); try discriminate; try reflexivity.
  - repeat constructor.
  - destruct (Hempty eq_refl) as [Hpopup Hthrown].
    split; [exact Hprevented | split; [exact Hpopup | exact Hthrown]].
Defined.

Lemma image_state_from_nearest_message_body_witness :
  let o := handleContextMenu keyText trimAscii
             (imageEvent "https://x/y.png" [ {| dataset_timestamp := Some "T" |} ])
             noParams noSelection usedState in
  imageMenu_image (after o) = Some "https://x/y.png" /\
  imageMenu_timestamp (after o) = Some "T".
Proof.
  destruct (image_state_from_nearest_message_body keyText trimAscii
              (imageEvent "https://x/y.png" [ {| dataset_timestamp := Some "T" |} ])
              noParams noSelection usedState []
              (messageBody [ {| dataset_timestamp := Some "T" |} ])
              (parent (element "BODY" []) (parent (element "HTML" []) document))
              {| dataset_timestamp := Some "T" |} [])
    as (_ & Himage & Hstamp & _); try discriminate; try reflexivity.
  - left. reflexivity.
  - constructor.
  - split; [exact Himage | exact Hstamp].
Defined.

Lemma image_class_takes_precedence_witness :
  let o := handleContextMenu keyText trimAscii imageAnchorEvent noParams noSelection
             usedState in
  popup o <> Some popupDefaultMenu /\ copyContext (after o) = "".
Proof.
  destruct (image_class_takes_precedence keyText trimAscii imageAnchorEvent noParams
              noSelection usedState) as (Hpopup & Hcopy & _); try discriminate.
  - left. reflexivity.
  - split; [exact Hpopup | exact Hcopy].
Defined.

Lemma suggestions_left_reversed_witness :
  suggestionsAfter (handleContextMenu keyText trimAscii textareaEvent
                      (misspelled ["hte"; "the"; "hit"]) noSelection usedState)
  = ["hit"; "the"; "hte"].
Proof.
  destruct (suggestions_left_reversed keyText trimAscii textareaEvent
              (misspelled ["hte"; "the"; "hit"]) noSelection usedState) as (H & _ & _).
  apply H; [left; reflexivity | discriminate].
Defined.


Lemma save_picture_sends_fetched_bytes_witness :
  Picture.clickSavePicture "Wire/3.0" "save-picture" notFound
    (after (handleContextMenu keyText trimAscii
              (imageEvent "https://x/y.png" [ {| dataset_timestamp := Some "T" |} ])
              noParams noSelection usedState))
  = Some {| Picture.channel := "save-picture";
            Picture.picture := [Byte.x34; Byte.x30];
            Picture.sentTimestamp := Some "T" |}.
Proof.
  destruct (save_picture_sends_fetched_bytes keyText trimAscii "Wire/3.0" "save-picture"
              notFound
              (imageEvent "https://x/y.png" [ {| dataset_timestamp := Some "T" |} ])
              noParams noSelection usedState) as (_ & H & _ & _).
  - reflexivity.
  - apply (H {| Picture.ok := false; Picture.arrayBuffer := Some [Byte.x34; Byte.x30] |});
      reflexivity.
Defined.

Lemma buildMacOSConfig_only_reads_witness :
  buildMacOSConfig parsePlain resolveAbsolute noOverrides "/repo/wire.json" "/repo/.env" false
    emptyWorld
  = (Throw ReadError, emptyWorld).
Proof.
  destruct (buildMacOSConfig_only_reads parsePlain resolveAbsolute noOverrides
              "/repo/wire.json" "/repo/.env" false emptyWorld) as [Hworld Hthrow].
  specialize (Hthrow eq_refl).
  destruct (buildMacOSConfig parsePlain resolveAbsolute noOverrides "/repo/wire.json" "/repo/.env"
              false emptyWorld) as [r w].
  simpl in Hworld, Hthrow. rewrite Hworld, Hthrow. reflexivity.
Defined.

Lemma buildMacOSConfig_environment_overrides_witness :
  exists macOSConfig packagerConfig,
    buildMacOSConfig parsePlain resolveAbsolute noOverrides "/repo/wire.json" "/repo/.env" false
      (repositoryWith signingEnv)
    = (Ok (macOSConfig, packagerConfig), repositoryWith signingEnv) /\
    bundleId macOSConfig = "com.example.app" /\
    certNameApplication macOSConfig = Some "Application" /\
    certNameInstaller macOSConfig = None.
Proof.
  assert (Hrun : exists macOSConfig packagerConfig,
             buildMacOSConfig parsePlain resolveAbsolute noOverrides "/repo/wire.json" "/repo/.env"
               false (repositoryWith signingEnv)
             = (Ok (macOSConfig, packagerConfig), repositoryWith signingEnv)).
  { eexists. eexists. vm_compute. reflexivity. }
  destruct Hrun as (macOSConfig & packagerConfig & Hrun).
  exists macOSConfig, packagerConfig. split; [exact Hrun |].
  destruct (buildMacOSConfig_environment_overrides parsePlain resolveAbsolute noOverrides
              "/repo/wire.json" "/repo/.env" false (repositoryWith signingEnv)
              (repositoryWith signingEnv) macOSConfig packagerConfig Hrun)
    as (Happ & Hinst & _ & _ & Hid & _).
  split; [apply Hid; [reflexivity | discriminate] |].
  split; [apply Happ; split; [reflexivity | discriminate] |].
  destruct (certNameInstaller macOSConfig) as [v |] eqn:Hv; [| reflexivity].
  destruct (proj1 (Hinst v) eq_refl) as [Hlookup Hne].
  vm_compute in Hlookup. injection Hlookup as <-. contradiction.
Defined.

Lemma buildMacOSConfig_packager_follows_config_witness :
  exists macOSConfig packagerConfig,
    buildMacOSConfig parsePlain resolveAbsolute noOverrides "/repo/wire.json" "/repo/.env" false
      (repositoryWith signingEnv)
    = (Ok (macOSConfig, packagerConfig), repositoryWith signingEnv) /\
    appBundleId packagerConfig = bundleId macOSConfig /\
    helperBundleId packagerConfig = bundleId macOSConfig ++ ".helper".
Proof.
  assert (Hrun : exists macOSConfig packagerConfig,
             buildMacOSConfig parsePlain resolveAbsolute noOverrides "/repo/wire.json" "/repo/.env"
               false (repositoryWith signingEnv)
             = (Ok (macOSConfig, packagerConfig), repositoryWith signingEnv)).
  { eexists. eexists. vm_compute. reflexivity. }
  destruct Hrun as (macOSConfig & packagerConfig & Hrun).
  exists macOSConfig, packagerConfig. split; [exact Hrun |].
  destruct (buildMacOSConfig_packager_follows_config parsePlain resolveAbsolute noOverrides
              "/repo/wire.json" "/repo/.env" false (repositoryWith signingEnv)
              (repositoryWith signingEnv) macOSConfig packagerConfig Hrun)
    as (Hid & Hhelper & _ & _).
  split; [exact Hid | exact Hhelper].
Defined.

Lemma buildMacOSWrapper_missing_package_json_witness :
  exists e,
    buildMacOSWrapper parsePlain stringify asciiUnits writing
        resolveAbsolute joinSegments noOverrides bundlingPackager
      (quietTool tt) (quietTool tt) (quietTool tt) sampleOptions
      (certificates (Some "Application") (Some "Installer"))
      "/repo/package.json" "/repo/wire.json" "/repo/.env" true descriptorOnly
    = (Throw e, descriptorOnly).
Proof.
  apply (buildMacOSWrapper_missing_package_json parsePlain stringify asciiUnits writing
      resolveAbsolute joinSegments noOverrides
           bundlingPackager (quietTool tt) (quietTool tt) (quietTool tt)).
  vm_compute. reflexivity.
Defined.

Lemma buildMacOSWrapper_packager_error_propagates_witness :
  let done :=
    buildMacOSWrapper parsePlain stringify asciiUnits writing
        resolveAbsolute joinSegments noOverrides failingPackager
      (quietTool tt) (quietTool tt) (quietTool tt) sampleOptions
      (certificates (Some "Application") (Some "Installer"))
      "/repo/package.json" "/repo/wire.json" "/repo/.env" true
      (repository packageJsonText) in
  fst done = Throw ToolError /\ shell (snd done) = [].
Proof.
  intros done. subst done.
  rewrite (buildMacOSWrapper_packager_error_propagates parsePlain stringify asciiUnits writing
      resolveAbsolute joinSegments
             noOverrides failingPackager (quietTool tt) (quietTool tt) (quietTool tt)
             sampleOptions (certificates (Some "Application") (Some "Installer"))
             "/repo/package.json" "/repo/wire.json" "/repo/.env" true
             (repository packageJsonText) packageJsonText wireJsonText
             packageJsonValue (JObject wireJsonMembers) wireJsonMembers ToolError
             (snd (failingPackager sampleOptions
                     (Manifests.building stringify asciiUnits "/repo/package.json"
                        "/repo/wire.json"
                        packageJsonValue wireJsonMembers
                        (files (repository packageJsonText))))));
    [split; reflexivity | vm_compute; reflexivity .. | reflexivity].
Defined.

Lemma buildMacOSWrapper_without_installer_certificate_witness :
  let done :=
    buildMacOSWrapper parsePlain stringify asciiUnits writing
        resolveAbsolute joinSegments noOverrides bundlingPackager
      (quietTool tt) (quietTool tt) (quietTool tt) sampleOptions
      (certificates (Some "Application") None)
      "/repo/package.json" "/repo/wire.json" "/repo/.env" true
      (repository packageJsonText) in
  fst done = Ok tt /\ shell (snd done) = [].
Proof.
  intros done. subst done.
  rewrite (buildMacOSWrapper_without_installer_certificate parsePlain stringify asciiUnits writing
      resolveAbsolute joinSegments
             noOverrides bundlingPackager (quietTool tt) (quietTool tt) (quietTool tt)
             sampleOptions (certificates (Some "Application") None)
             "/repo/package.json" "/repo/wire.json" "/repo/.env" true
             (repository packageJsonText) packageJsonText wireJsonText
             packageJsonValue (JObject wireJsonMembers) wireJsonMembers
             (one "wrap/build/Wire-mas-x64")
             (snd (bundlingPackager sampleOptions
                     (Manifests.building stringify asciiUnits "/repo/package.json"
                        "/repo/wire.json"
                        packageJsonValue wireJsonMembers
                        (files (repository packageJsonText))))));
    [split; reflexivity | vm_compute; reflexivity .. | reflexivity].
Defined.

Lemma buildMacOSWrapper_empty_build_list_witness :
  let done :=
    buildMacOSWrapper parsePlain stringify asciiUnits writing
        resolveAbsolute joinSegments noOverrides (listingPackager [])
      (quietTool tt) (quietTool tt) (quietTool tt) sampleOptions
      (certificates (Some "Application") (Some "Installer"))
      "/repo/package.json" "/repo/wire.json" "/repo/.env" true
      (repository packageJsonText) in
  fst done = Throw MacOS.TypeError /\ shell (snd done) = [].
Proof.
  intros done. subst done.
  rewrite (buildMacOSWrapper_empty_build_list parsePlain stringify asciiUnits writing
      resolveAbsolute joinSegments
             noOverrides (listingPackager []) (quietTool tt) (quietTool tt)
             (quietTool tt)
             sampleOptions (certificates (Some "Application") (Some "Installer"))
             "/repo/package.json" "/repo/wire.json" "/repo/.env" true
             (repository packageJsonText) packageJsonText wireJsonText
             packageJsonValue (JObject wireJsonMembers) wireJsonMembers
             (snd (listingPackager [] sampleOptions
                     (Manifests.building stringify asciiUnits "/repo/package.json"
                        "/repo/wire.json"
                        packageJsonValue wireJsonMembers
                        (files (repository packageJsonText))))));
    [split; reflexivity | vm_compute; reflexivity .. | reflexivity].
Defined.

Lemma buildMacOSWrapper_shell_only_when_signing_manually_witness :
  shell (snd (buildMacOSWrapper parsePlain stringify asciiUnits writing
      resolveAbsolute joinSegments noOverrides bundlingPackager
                (quietTool tt) (quietTool tt) (quietTool tt) sampleOptions
                (certificates (Some "Application") (Some "Installer"))
                "/repo/package.json" "/repo/wire.json" "/repo/.env" false
                (repository packageJsonText)))
  = [].
Proof.
  apply (buildMacOSWrapper_shell_only_when_signing_manually parsePlain stringify asciiUnits writing
      resolveAbsolute joinSegments
           noOverrides bundlingPackager (quietTool tt) (quietTool tt) (quietTool tt)
           sampleOptions (certificates (Some "Application") (Some "Installer"))
           "/repo/package.json" "/repo/wire.json" "/repo/.env" false
           (repository packageJsonText)).
  left. reflexivity.
Defined.

Lemma buildMacOSWrapper_build_list_counts_for_first_witness :
  buildMacOSWrapper parsePlain stringify asciiUnits writing resolveAbsolute joinSegments noOverrides
    (listingPackager ["wrap/build/Wire-mas-x64"; "wrap/build/other"])
    (quietTool tt) (quietTool tt) (quietTool tt) sampleOptions
    (certificates (Some "Application") (Some "Installer"))
    "/repo/package.json" "/repo/wire.json" "/repo/.env" true (repository packageJsonText)
  = buildMacOSWrapper parsePlain stringify asciiUnits writing
      resolveAbsolute joinSegments noOverrides bundlingPackager
      (quietTool tt) (quietTool tt) (quietTool tt) sampleOptions
      (certificates (Some "Application") (Some "Installer"))
      "/repo/package.json" "/repo/wire.json" "/repo/.env" true
      (repository packageJsonText).
Proof.
  apply (buildMacOSWrapper_build_list_counts_for_first parsePlain stringify asciiUnits writing
      resolveAbsolute joinSegments
           noOverrides
           (listingPackager ["wrap/build/Wire-mas-x64"; "wrap/build/other"])
           (quietTool tt) (quietTool tt) (quietTool tt) bundlingPackager).
  intros options fs. reflexivity.
Defined.


Lemma buildMacOSWrapper_manual_signing_witness :
  let done :=
    buildMacOSWrapper parsePlain stringify asciiUnits writing
        resolveAbsolute joinSegments noOverrides bundlingPackager
      (quietTool tt) (quietTool tt) (quietTool tt) sampleOptions
      (certificates (Some "Application") (Some "Installer"))
      "/repo/package.json" "/repo/wire.json" "/repo/.env" true
      (repository packageJsonText) in
  fst done = Ok tt /\
  shell (snd done)
  = ([] ++ Manifests.signingCommands
             (joinSegments "wrap/build/Wire-mas-x64" ("Wire" ++ ".app"))
             (joinSegments "wrap/dist" ("Wire" ++ ".pkg"))
             "Wire" "Application" "Installer")%list.
Proof.
  assert (Happlication : "Application" <> "") by discriminate.
  assert (Hinstaller : "Installer" <> "") by discriminate.
  apply (buildMacOSWrapper_manual_signing parsePlain stringify asciiUnits writing
      resolveAbsolute joinSegments noOverrides
           bundlingPackager (quietTool tt) (quietTool tt) (quietTool tt)
           sampleOptions (certificates (Some "Application") (Some "Installer"))
           "/repo/package.json" "/repo/wire.json" "/repo/.env"
           (repository packageJsonText) packageJsonText wireJsonText
           packageJsonValue (JObject wireJsonMembers) wireJsonMembers
           (snd (bundlingPackager sampleOptions
                   (Manifests.building stringify asciiUnits "/repo/package.json"
                        "/repo/wire.json"
                      packageJsonValue wireJsonMembers
                      (files (repository packageJsonText)))))
           "wrap/build/Wire-mas-x64" "wrap/dist" "Application" "Installer");
    [ vm_compute; reflexivity | vm_compute; reflexivity | vm_compute; reflexivity
    | vm_compute; reflexivity | vm_compute; reflexivity
    | intros text fs; reflexivity | intros text fs; reflexivity
    | reflexivity | exact Happlication | reflexivity | exact Hinstaller
    | reflexivity | reflexivity
    | intros; reflexivity | intros; reflexivity ].
Defined.

Lemma buildMacOSWrapper_descriptor_write_fails_witness :
  buildMacOSWrapper parsePlain stringify asciiUnits descriptorLocked resolveAbsolute
    joinSegments noOverrides bundlingPackager (quietTool tt) (quietTool tt) (quietTool tt)
    sampleOptions (certificates (Some "Application") (Some "Installer"))
    "/repo/package.json" "/repo/wire.json" "/repo/.env" true (repository packageJsonText)
  = (Throw WriteError,
     {| files :=
          <["/repo/package.json" :=
              MacOS.written stringify
                (Manifests.buildManifest asciiUnits packageJsonValue wireJsonMembers)]>
            (files (repository packageJsonText));
        env := env (repository packageJsonText);
        shell := shell (repository packageJsonText) |}).
Proof.
  apply (buildMacOSWrapper_descriptor_write_fails parsePlain stringify asciiUnits
           descriptorLocked resolveAbsolute joinSegments noOverrides bundlingPackager
           (quietTool tt) (quietTool tt) (quietTool tt)
           sampleOptions (certificates (Some "Application") (Some "Installer"))
           "/repo/package.json" "/repo/wire.json" "/repo/.env" true
           (repository packageJsonText) packageJsonText wireJsonText
           packageJsonValue (JObject wireJsonMembers) wireJsonMembers WriteError);
    [ vm_compute; reflexivity | vm_compute; reflexivity | vm_compute; reflexivity
    | vm_compute; reflexivity | vm_compute; reflexivity
    | intros text fs; reflexivity | intros text fs; reflexivity ].
Defined.
